(** * SmartHub admin front end: API client, session store and auth gate

    A shallow embedding of [src/api/client.ts], [src/hooks/useAuth.ts],
    [src/config.ts], [src/components/RequireAuth.tsx], the header of
    [src/App.tsx] and the loaders and form handlers of the catalog, users,
    orders, dashboard and registration pages, followed by the properties of
    the specification that concern them and by further properties of the
    code.

    Conventions of the embedding.
    - [localStorage] is a finite map from keys to strings; [getItem] of a
      missing key is [None] (JavaScript [null]).
    - A JavaScript value of type [any] is a [value]; numbers are kept
      abstract (they are IEEE doubles in the browser) and only the
      operations the code applies to them are required of the runtime.
    - An [async] function is a computation in the monad [M]: it reads and
      writes the browser state and either returns or throws.  One call runs
      without interleaving with other calls.
    - The network is an oracle mapping the history of issued requests to
      the outcome of the last one: a complete response (status line and
      body text) or a rejection of [fetch]. *)

From Stdlib Require Import Ascii String.
From stdpp Require Import gmap strings list fin_maps pretty.

Open Scope string_scope.

(** ** JavaScript values *)

#[warnings="-register-all"]
Inductive value (number : Type) : Type :=
  | JUndefined
  | JNull
  | JBool (b : bool)
  | JNum (n : number)
  | JStr (s : string)
  | JArr (items : list (value number))
  | JObj (props : list (string * value number)).

Arguments JUndefined {number}.
Arguments JNull {number}.
Arguments JBool {number} b.
Arguments JNum {number} n.
Arguments JStr {number} s.
Arguments JArr {number} items.
Arguments JObj {number} props.

(** The built-ins of the JavaScript runtime that the code calls.  They are
    not code of the repository: the development is parametric in them. *)
Class Runtime (number : Type) : Type := {
  (** [ToBoolean] on numbers: false for [0], [-0] and [NaN]. *)
  Number_ToBoolean : number → bool;
  (** [Number.prototype.toString]. *)
  Number_toString : number → string;
  (** [JSON.parse]; [None] when it throws a [SyntaxError]. *)
  JSON_parse : string → option (value number);
  (** [JSON.stringify] on a value that is not [undefined]. *)
  JSON_stringify : value number → string;
  (** The message of the [SyntaxError] that [JSON.parse] throws on a text
      it rejects (it differs between engines). *)
  JSON_error : string → string;
  (** The message of the [TypeError] that the conversion of an object to a
      primitive value throws when it finds none (it differs between
      engines). *)
  ToPrimitive_error : string;
}.

(** The numeric globals that the forms of the pages call. *)
Class Numeric (number : Type) : Type := {
  (** The global [parseFloat]. *)
  parseFloat : string → number;
  (** The global [parseInt] with radix 10. *)
  parseInt10 : string → number;
  (** The global [isNaN]. *)
  isNaN : number → bool;
  (** [x <= 0] on numbers. *)
  Number_le0 : number → bool;
}.

(** [ToBoolean] on strings: only the empty string is falsy. *)
Definition String_ToBoolean (s : string) : bool :=
  match s with
  | "" => false
  | _ => true
  end.

(** [ToBoolean] on a [string | null]. *)
Definition nullable_ToBoolean (o : option string) : bool :=
  match o with
  | Some s => String_ToBoolean s
  | None => false
  end.

(** [a || d] for a [string | null] (or possibly undefined) [a] and a
    string [d]. *)
Definition or_default (o : option string) (d : string) : string :=
  match o with
  | Some s => if String_ToBoolean s then s else d
  | None => d
  end.

Section Values.
Context {number : Type} `{!Runtime number}.

Local Abbreviation value := (value number).

(** [ToBoolean] of ECMAScript: the truthiness test behind [if], [&&],
    [||], [!] and [Boolean(...)]. *)
Definition ToBoolean (v : value) : bool :=
  match v with
  | JUndefined | JNull => false
  | JBool b => b
  | JNum n => Number_ToBoolean n
  | JStr s => String_ToBoolean s
  | JArr _ | JObj _ => true
  end.

(** Own property of an object built by [JSON.parse]. *)
Fixpoint obj_get (k : string) (props : list (string * value)) : value :=
  match props with
  | [] => JUndefined
  | (k', v) :: rest => if String.eqb k k' then v else obj_get k rest
  end.

(** [v.k] for a truthy [v] and a key [k] that no built-in prototype
    defines ([detail] and [message] are the only keys read): primitives
    and arrays have no such property. *)
Definition prop (v : value) (k : string) : value :=
  match v with
  | JObj props => obj_get k props
  | _ => JUndefined
  end.

(** [Array.prototype.join] over already converted elements. *)
Fixpoint join (sep : string) (l : list string) : string :=
  match l with
  | [] => ""
  | [s] => s
  | s :: rest => s +:+ sep +:+ join sep rest
  end.

(** Whether an object built by [JSON.parse] has the own property [k]. *)
Definition has_own (k : string) (props : list (string * value)) : bool :=
  existsb (λ kv, String.eqb k kv.1) props.

(** [ToString] of ECMAScript, which the [Error] constructor applies to its
    message and [localStorage.setItem] to its value; [None] when it throws
    a [TypeError].  The conversion of an object calls its [toString]: that
    of [Object.prototype], which gives [[object Object]], unless the object
    has an own property of that name; a value read from JSON is never
    callable, so such an object has no primitive value, whatever its
    [valueOf].  An array joins the conversions of its items, [null] and
    [undefined] counting as empty. *)
Fixpoint ToString (v : value) : option string :=
  match v with
  | JUndefined => Some "undefined"
  | JNull => Some "null"
  | JBool true => Some "true"
  | JBool false => Some "false"
  | JNum n => Some (Number_toString n)
  | JStr s => Some s
  | JArr items =>
      join "," <$>
        ((fix elems (l : list value) : option (list string) :=
            match l with
            | [] => Some []
            | (JUndefined | JNull) :: rest => cons "" <$> elems rest
            | x :: rest =>
                match ToString x with
                | Some s => cons s <$> elems rest
                | None => None
                end
            end) items)
  | JObj props =>
      if has_own "toString" props then None else Some "[object Object]"
  end.
End Values.

(** ** Errors, requests and the browser state *)

Section Browser.
Context {number : Type} `{!Runtime number}.

Local Abbreviation value := (value number).

(** What the code throws and catches.  [ApiError] is the class of
    [client.ts]; [TypeError] is the rejection of [fetch]; [SyntaxError]
    comes from [res.json()]; [Error] is [new Error(msg)]. *)
Inductive exn : Type :=
  | ApiError (message : string) (status : N) (data : value)
  | TypeError (message : string)
  | SyntaxError (message : string)
  | Error (message : string).

(** [e.message]. *)
Definition exn_message (e : exn) : string :=
  match e with
  | ApiError m _ _ | TypeError m | SyntaxError m | Error m => m
  end.

(** [e.status], [undefined] on every error but an [ApiError]. *)
Definition exn_status (e : exn) : option N :=
  match e with
  | ApiError _ s _ => Some s
  | _ => None
  end.

(** [e.data]. *)
Definition exn_data (e : exn) : option value :=
  match e with
  | ApiError _ _ d => Some d
  | _ => None
  end.

(** The second argument of [fetch]; an absent field is [None]. *)
Record RequestInit : Type := {
  init_method : option string;
  init_headers : option (gmap string string);
  init_body : option string;
}.

Definition no_init : RequestInit :=
  {| init_method := None; init_headers := None; init_body := None |}.

(** One call of [fetch]. *)
Record Request : Type := {
  req_url : string;
  req_init : RequestInit;
}.

(** The value of a header of an outgoing request, if it is attached. *)
Definition header (name : string) (r : Request) : option string :=
  init_headers (req_init r) ≫= (λ h, h !! name).

(** A complete response: [resp.status] and the text of its body. *)
Record Response : Type := {
  resp_status : N;
  resp_text : string;
}.

(** [resp.ok]. *)
Definition resp_ok (r : Response) : bool :=
  (200 <=? resp_status r)%N && (resp_status r <=? 299)%N.

(** The outcome of one exchange with the network. *)
Inductive Exchange : Type :=
  | Responded (r : Response)
  | Unreachable (reason : string).

Inductive ToastType : Type := ToastSuccess | ToastError | ToastInfo.

(** The state outside the components: the durable key-value storage of
    the origin, the requests handed to [fetch] (newest first) and the
    notifications handed to [showToast] (newest first). *)
Record World : Type := {
  localStorage : gmap string string;
  sent : list Request;
  toasts : list (ToastType * string);
}.

Definition set_localStorage (f : gmap string string → gmap string string)
    (w : World) : World :=
  {| localStorage := f (localStorage w); sent := sent w; toasts := toasts w |}.

Definition push_sent (r : Request) (w : World) : World :=
  {| localStorage := localStorage w; sent := r :: sent w; toasts := toasts w |}.

Definition push_toast (t : ToastType * string) (w : World) : World :=
  {| localStorage := localStorage w; sent := sent w; toasts := t :: toasts w |}.

(** *** The monad of asynchronous code *)

Inductive Outcome (A : Type) : Type :=
  | Ret (a : A)
  | Throw (e : exn).
Arguments Ret {A} a.
Arguments Throw {A} e.

(** A computation over the view state [V] of a component and the world. *)
Definition M (V A : Type) : Type := V → World → Outcome A * V * World.

Definition ret {V A} (a : A) : M V A := λ v w, (Ret a, v, w).

Definition throw {V A} (e : exn) : M V A := λ v w, (Throw e, v, w).

Definition bind {V A B} (m : M V A) (k : A → M V B) : M V B :=
  λ v w,
    match m v w with
    | (Ret a, v', w') => k a v' w'
    | (Throw e, v', w') => (Throw e, v', w')
    end.

(** [try { body } catch (err) { handler }]. *)
Definition try_catch {V A} (body : M V A) (handler : exn → M V A) : M V A :=
  λ v w,
    match body v w with
    | (Ret a, v', w') => (Ret a, v', w')
    | (Throw e, v', w') => handler e v' w'
    end.

(** [try { body } finally { cleanup }]: the outcome of [body] stands
    unless [cleanup] throws. *)
Definition finally {V A} (body : M V A) (cleanup : M V unit) : M V A :=
  λ v w,
    match body v w with
    | (r, v', w') =>
        match cleanup v' w' with
        | (Ret _, v'', w'') => (r, v'', w'')
        | (Throw e, v'', w'') => (Throw e, v'', w'')
        end
    end.

(** [setX(...)] of a component. *)
Definition set_view {V} (f : V → V) : M V unit := λ v w, (Ret (), f v, w).

Definition get_view {V} : M V V := λ v w, (Ret v, v, w).

(** [localStorage.getItem(k)]. *)
Definition getItem {V} (k : string) : M V (option string) :=
  λ v w, (Ret (localStorage w !! k), v, w).

(** [localStorage.setItem(k, x)]. *)
Definition setItem {V} (k x : string) : M V unit :=
  λ v w, (Ret (), v, set_localStorage (insert k x) w).

(** [localStorage.removeItem(k)]. *)
Definition removeItem {V} (k : string) : M V unit :=
  λ v w, (Ret (), v, set_localStorage (delete k) w).

(** [showToast({type, message})] of the toast provider, as a sink. *)
Definition showToast {V} (type : ToastType) (message : string) : M V unit :=
  λ v w, (Ret (), v, push_toast (type, message) w).

(** The parts of the triple that a computation yields. *)
Definition outcome {V A} (r : Outcome A * V * World) : Outcome A := r.1.1.
Definition view_after {V A} (r : Outcome A * V * World) : V := r.1.2.
Definition world_after {V A} (r : Outcome A * V * World) : World := r.2.

Section Network.
(** The network: given the requests issued so far, the last one at the
    head, the outcome of that last request. *)
Variable network : list Request → Exchange.

(** [await fetch(url, init)] followed by the delivery of the body. *)
Definition fetch {V} (url : string) (init : RequestInit) : M V Response :=
  λ v w,
    let w' := push_sent {| req_url := url; req_init := init |} w in
    match network (sent w') with
    | Responded r => (Ret r, v, w')
    | Unreachable reason => (Throw (TypeError reason), v, w')
    end.

(** The answer of the network to the request issued last in [w]; after one
    call of the client, that is the answer to the request of the call. *)
Definition last_exchange (w : World) : Exchange := network (sent w).
End Network.
End Browser.

Arguments Ret {number A} a.
Arguments Throw {number A} e.

#[global] Instance M_ret {number V} : MRet (@M number V) := @ret number V.
#[global] Instance M_bind {number V} : MBind (@M number V) :=
  λ A B k m, @bind number V A B m k.

(** ** Configuration: [src/config.ts] *)

(** The variables of [import.meta.env] that the configuration reads; an
    unset variable is [None]. *)
Record ImportMetaEnv : Type := {
  VITE_API_URL : option string;
  VITE_AUTH_API_URL : option string;
  VITE_USERS_API_URL : option string;
  VITE_CATALOG_API_URL : option string;
  VITE_ORDERS_API_URL : option string;
}.

Definition API_BASE_URL (env : ImportMetaEnv) : string :=
  or_default (VITE_API_URL env) "http://localhost:8000".

Definition AUTH_BASE_URL (env : ImportMetaEnv) : string :=
  or_default (VITE_AUTH_API_URL env) "http://localhost:8001".

Definition USERS_BASE_URL (env : ImportMetaEnv) : string :=
  or_default (VITE_USERS_API_URL env) "http://localhost:8002".

Definition CATALOG_BASE_URL (env : ImportMetaEnv) : string :=
  or_default (VITE_CATALOG_API_URL env) "http://localhost:8003".

Definition ORDERS_BASE_URL (env : ImportMetaEnv) : string :=
  or_default (VITE_ORDERS_API_URL env) "http://localhost:8004".

(** ** The API client: [src/api/client.ts] *)

Section Client.
Context {number : Type} `{!Runtime number}.
Variable env : ImportMetaEnv.
Variable network : list Request → Exchange.
Context {V : Type}.

Local Abbreviation value := (value number).
Local Abbreviation M := (@M number V).

Definition getAuthToken : M (option string) :=
  getItem "authToken".

(** The [headers] object of [request] before the token is looked at: the
    content type, overridden by the spread of [options.headers || {}]. *)
Definition base_headers (options : RequestInit) : gmap string string :=
  default ∅ (init_headers options) ∪ {["Content-Type" := "application/json"]}.

(** [if (token) headers["Authorization"] = `Bearer ${token}`]. *)
Definition with_token (token : option string) (headers : gmap string string)
    : gmap string string :=
  match token with
  | Some t =>
      if String_ToBoolean t
      then <["Authorization" := "Bearer " +:+ t]> headers
      else headers
  | None => headers
  end.

(** The [data] of [request]:
    [try { data = text ? JSON.parse(text) : null } catch { data = text || null }]. *)
Definition parse_body (text : string) : value :=
  match (if String_ToBoolean text then JSON_parse text else Some JNull) with
  | Some data => data
  | None => if String_ToBoolean text then JStr text else JNull
  end.

(** The [message] of [request] before it reaches the [ApiError]
    constructor:
    [(data && (data.detail || data.message)) || `Request failed with status ${resp.status}`]. *)
Definition failure_message (data : value) (status : N) : value :=
  let picked :=
    if ToBoolean data
    then (let detail := prop data "detail" in
          if ToBoolean detail then detail else prop data "message")
    else data in
  if ToBoolean picked
  then picked
  else JStr ("Request failed with status " +:+ pretty status).

(** What [throw new ApiError(message, status, data)] throws: the error
    built, or the [TypeError] of the [Error] constructor when [message] has
    no string conversion. *)
Definition new_ApiError (message : value) (status : N) (data : value)
    : exn (number := number) :=
  match ToString message with
  | Some text => ApiError text status data
  | None => TypeError ToPrimitive_error
  end.

Definition request (path : string) (options : RequestInit) : M value :=
  let url := API_BASE_URL env +:+ path in
  let headers := base_headers options in
  token ← getAuthToken;
  let headers := with_token token headers in
  resp ← fetch network url
    {| init_method := init_method options;
       init_headers := Some headers;
       init_body := init_body options |};
  let text := resp_text resp in
  let data := parse_body text in
  if negb (resp_ok resp) then
    (if decide (resp_status resp = 401%N)
     then removeItem "authToken";; removeItem "authUsername"
     else mret ());;
    let message := failure_message data (resp_status resp) in
    throw (new_ApiError message (resp_status resp) data)
  else
    mret data.

Definition apiGet (path : string) : M value :=
  request path
    {| init_method := Some "GET"; init_headers := None; init_body := None |}.

(** [body] is [JUndefined] when the caller omits it. *)
Definition apiPost (path : string) (body : value) : M value :=
  request path
    {| init_method := Some "POST";
       init_headers := None;
       init_body := if ToBoolean body then Some (JSON_stringify body) else None |}.

(** A call of one of the two functions that the client exports. *)
Inductive call : Type :=
  | Get (path : string)
  | Post (path : string) (body : value).

Definition perform (c : call) : M value :=
  match c with
  | Get path => apiGet path
  | Post path body => apiPost path body
  end.

(** The request that [request path options] hands to [fetch] when the
    storage is [ls]. *)
Definition issued (path : string) (options : RequestInit)
    (ls : gmap string string) : Request :=
  {| req_url := API_BASE_URL env +:+ path;
     req_init :=
       {| init_method := init_method options;
          init_headers :=
            Some (with_token (ls !! "authToken") (base_headers options));
          init_body := init_body options |} |}.

(** The options that [apiGet] and [apiPost] pass to [request]. *)
Definition options_of (c : call) : RequestInit :=
  match c with
  | Get _ =>
      {| init_method := Some "GET"; init_headers := None; init_body := None |}
  | Post _ body =>
      {| init_method := Some "POST";
         init_headers := None;
         init_body := if ToBoolean body then Some (JSON_stringify body) else None |}
  end.

Definition path_of (c : call) : string :=
  match c with
  | Get path | Post path _ => path
  end.

(** ** The session: [src/hooks/useAuth.ts] *)

Record Auth : Type := {
  token : option string;
  username : option string;
  role : string;
  isAuthenticated : bool;
}.

(** The fields that [useAuth] reads on a call. *)
Definition useAuth : M Auth :=
  token ← getItem "authToken";
  username ← getItem "authUsername";
  authRole ← getItem "authRole";
  let role := or_default authRole "user" in
  let isAuthenticated := nullable_ToBoolean token in
  mret {| token := token; username := username; role := role;
          isAuthenticated := isAuthenticated |}.

(** The [logout] closure that [useAuth] returns. *)
Definition logout : M unit :=
  removeItem "authToken";;
  removeItem "authUsername";;
  removeItem "authRole".

End Client.

(** ** The pages that call their services directly *)

Section Direct.
Context {number : Type} `{!Runtime number} {V : Type}.

Local Abbreviation M := (@M number V).

(** [await res.json()]. *)
Definition res_json (res : Response) : M (value number) :=
  match JSON_parse (resp_text res) with
  | Some data => mret data
  | None => throw (SyntaxError (JSON_error (resp_text res)))
  end.

(** [if (!res.ok) { throw new Error(`HTTP ${res.status}`); }]. *)
Definition check_ok (res : Response) : M unit :=
  if negb (resp_ok res)
  then throw (Error ("HTTP " +:+ pretty (resp_status res)))
  else mret ().

(** [err?.message || fallback] on a caught error. *)
Definition message_or (err : exn (number := number)) (fallback : string) : string :=
  or_default (Some (exn_message err)) fallback.

(** The [init] of the three creation requests. *)
Definition post_json (body : value number) : RequestInit :=
  {| init_method := Some "POST";
     init_headers := Some {["Content-Type" := "application/json"]};
     init_body := Some (JSON_stringify body) |}.

(** A computation all of whose requests go out without an [Authorization]
    header, from every view and every world: [fresh] lists the requests it
    hands to [fetch], newest first. *)
Definition direct {A : Type} (m : M A) : Prop :=
  ∀ (v : V) (w : World),
    ∃ fresh : list Request,
      sent (world_after (m v w)) = (fresh ++ sent w)%list
      ∧ Forall (λ r, header "Authorization" r = None) fresh.
End Direct.

(** *** [src/pages/CatalogPage.tsx] *)

Module CatalogPage.
Section Page.
Context {number : Type} `{!Runtime number, !Numeric number}.
Variable env : ImportMetaEnv.
Variable network : list Request → Exchange.

Local Abbreviation value := (value number).

(** The [useState] cells of the component. *)
Record View : Type := {
  products : value;
  loading : bool;
  error : option string;
  name : string;
  price : string;
  inStock : bool;
  creating : bool;
  createError : option string;
}.

Definition initial : View :=
  {| products := JArr []; loading := true; error := None; name := "";
     price := ""; inStock := true; creating := false; createError := None |}.

Local Abbreviation M := (@M number View).

Definition setProducts (x : value) : M unit :=
  set_view (λ v, Build_View x (loading v) (error v) (name v) (price v)
                   (inStock v) (creating v) (createError v)).
Definition setLoading (x : bool) : M unit :=
  set_view (λ v, Build_View (products v) x (error v) (name v) (price v)
                   (inStock v) (creating v) (createError v)).
Definition setError (x : option string) : M unit :=
  set_view (λ v, Build_View (products v) (loading v) x (name v) (price v)
                   (inStock v) (creating v) (createError v)).
Definition setName (x : string) : M unit :=
  set_view (λ v, Build_View (products v) (loading v) (error v) x (price v)
                   (inStock v) (creating v) (createError v)).
Definition setPrice (x : string) : M unit :=
  set_view (λ v, Build_View (products v) (loading v) (error v) (name v) x
                   (inStock v) (creating v) (createError v)).
Definition setInStock (x : bool) : M unit :=
  set_view (λ v, Build_View (products v) (loading v) (error v) (name v)
                   (price v) x (creating v) (createError v)).
Definition setCreating (x : bool) : M unit :=
  set_view (λ v, Build_View (products v) (loading v) (error v) (name v)
                   (price v) (inStock v) x (createError v)).
Definition setCreateError (x : option string) : M unit :=
  set_view (λ v, Build_View (products v) (loading v) (error v) (name v)
                   (price v) (inStock v) (creating v) x).

Definition loadProducts : M unit :=
  finally
    (try_catch
       (setLoading true;;
        setError None;;
        res ← fetch network (CATALOG_BASE_URL env +:+ "/products") no_init;
        check_ok res;;
        data ← res_json res;
        setProducts data)
       (λ err, setError (Some (message_or err "Не удалось загрузить товары"))))
    (setLoading false).

(** The effect that runs once when the component mounts. *)
Definition mount : M unit := loadProducts.

(** [handleCreate] reads [name], [price] and [inStock] as they were when
    the component last rendered.  [e.preventDefault()] acts on the DOM
    event only and has no counterpart here, in this handler and in those of
    the other two pages. *)
Definition handleCreate : M unit :=
  form ← get_view;
  setCreateError None;;
  if negb (String_ToBoolean (name form)) then
    setCreateError (Some "Введите имя товара")
  else
    let priceValue := parseFloat (price form) in
    if isNaN priceValue || Number_le0 priceValue then
      setCreateError (Some "Введите корректную цену (> 0)")
    else
      finally
        (try_catch
           (setCreating true;;
            res ← fetch network (CATALOG_BASE_URL env +:+ "/products")
              (post_json
                 (JObj [("name", JStr (name form));
                        ("price", JNum priceValue);
                        ("in_stock", JBool (inStock form))]));
            check_ok res;;
            loadProducts;;
            setName "";;
            setPrice "";;
            setInStock true)
           (λ err, setCreateError
                     (Some (message_or err "Ошибка при создании товара"))))
        (setCreating false).
End Page.
End CatalogPage.

(** *** [src/pages/UsersPage.tsx] *)

Module UsersPage.
Section Page.
Context {number : Type} `{!Runtime number, !Numeric number}.
Variable env : ImportMetaEnv.
Variable network : list Request → Exchange.

Local Abbreviation value := (value number).

Record View : Type := {
  users : value;
  loading : bool;
  error : option string;
  username : string;
  email : string;
  creating : bool;
  createError : option string;
}.

Definition initial : View :=
  {| users := JArr []; loading := true; error := None; username := "";
     email := ""; creating := false; createError := None |}.

Local Abbreviation M := (@M number View).

Definition setUsers (x : value) : M unit :=
  set_view (λ v, Build_View x (loading v) (error v) (username v) (email v)
                   (creating v) (createError v)).
Definition setLoading (x : bool) : M unit :=
  set_view (λ v, Build_View (users v) x (error v) (username v) (email v)
                   (creating v) (createError v)).
Definition setError (x : option string) : M unit :=
  set_view (λ v, Build_View (users v) (loading v) x (username v) (email v)
                   (creating v) (createError v)).
Definition setUsername (x : string) : M unit :=
  set_view (λ v, Build_View (users v) (loading v) (error v) x (email v)
                   (creating v) (createError v)).
Definition setEmail (x : string) : M unit :=
  set_view (λ v, Build_View (users v) (loading v) (error v) (username v) x
                   (creating v) (createError v)).
Definition setCreating (x : bool) : M unit :=
  set_view (λ v, Build_View (users v) (loading v) (error v) (username v)
                   (email v) x (createError v)).
Definition setCreateError (x : option string) : M unit :=
  set_view (λ v, Build_View (users v) (loading v) (error v) (username v)
                   (email v) (creating v) x).

Definition loadUsers : M unit :=
  finally
    (try_catch
       (setLoading true;;
        setError None;;
        res ← fetch network (USERS_BASE_URL env +:+ "/users") no_init;
        check_ok res;;
        data ← res_json res;
        setUsers data)
       (λ err, setError
                 (Some (message_or err "Не удалось загрузить пользователей"))))
    (setLoading false).

Definition mount : M unit := loadUsers.

Definition handleCreate : M unit :=
  form ← get_view;
  setCreateError None;;
  if negb (String_ToBoolean (username form)) then
    setCreateError (Some "Введите username")
  else
    finally
      (try_catch
         (setCreating true;;
          res ← fetch network (USERS_BASE_URL env +:+ "/users")
            (post_json
               (JObj [("username", JStr (username form));
                      ("email", if String_ToBoolean (email form)
                                then JStr (email form) else JNull)]));
          check_ok res;;
          loadUsers;;
          setUsername "";;
          setEmail "")
         (λ err, setCreateError
                   (Some (message_or err "Ошибка при создании пользователя"))))
      (setCreating false).
End Page.
End UsersPage.

(** *** [src/pages/OrdersPage.tsx] *)

Module OrdersPage.
Section Page.
Context {number : Type} `{!Runtime number, !Numeric number}.
Variable env : ImportMetaEnv.
Variable network : list Request → Exchange.

Local Abbreviation value := (value number).

Record View : Type := {
  orders : value;
  ordersLoading : bool;
  ordersError : option string;
  users : value;
  usersError : option string;
  products : value;
  productsError : option string;
  userId : string;
  productId : string;
  quantity : string;
  creating : bool;
  createError : option string;
}.

Definition initial : View :=
  {| orders := JArr []; ordersLoading := true; ordersError := None;
     users := JArr []; usersError := None;
     products := JArr []; productsError := None;
     userId := ""; productId := ""; quantity := "1";
     creating := false; createError := None |}.

Local Abbreviation M := (@M number View).

Definition setOrders (x : value) : M unit :=
  set_view (λ v, Build_View x (ordersLoading v) (ordersError v) (users v)
                   (usersError v) (products v) (productsError v) (userId v)
                   (productId v) (quantity v) (creating v) (createError v)).
Definition setOrdersLoading (x : bool) : M unit :=
  set_view (λ v, Build_View (orders v) x (ordersError v) (users v)
                   (usersError v) (products v) (productsError v) (userId v)
                   (productId v) (quantity v) (creating v) (createError v)).
Definition setOrdersError (x : option string) : M unit :=
  set_view (λ v, Build_View (orders v) (ordersLoading v) x (users v)
                   (usersError v) (products v) (productsError v) (userId v)
                   (productId v) (quantity v) (creating v) (createError v)).
Definition setUsers (x : value) : M unit :=
  set_view (λ v, Build_View (orders v) (ordersLoading v) (ordersError v) x
                   (usersError v) (products v) (productsError v) (userId v)
                   (productId v) (quantity v) (creating v) (createError v)).
Definition setUsersError (x : option string) : M unit :=
  set_view (λ v, Build_View (orders v) (ordersLoading v) (ordersError v)
                   (users v) x (products v) (productsError v) (userId v)
                   (productId v) (quantity v) (creating v) (createError v)).
Definition setProducts (x : value) : M unit :=
  set_view (λ v, Build_View (orders v) (ordersLoading v) (ordersError v)
                   (users v) (usersError v) x (productsError v) (userId v)
                   (productId v) (quantity v) (creating v) (createError v)).
Definition setProductsError (x : option string) : M unit :=
  set_view (λ v, Build_View (orders v) (ordersLoading v) (ordersError v)
                   (users v) (usersError v) (products v) x (userId v)
                   (productId v) (quantity v) (creating v) (createError v)).
Definition setUserId (x : string) : M unit :=
  set_view (λ v, Build_View (orders v) (ordersLoading v) (ordersError v)
                   (users v) (usersError v) (products v) (productsError v) x
                   (productId v) (quantity v) (creating v) (createError v)).
Definition setProductId (x : string) : M unit :=
  set_view (λ v, Build_View (orders v) (ordersLoading v) (ordersError v)
                   (users v) (usersError v) (products v) (productsError v)
                   (userId v) x (quantity v) (creating v) (createError v)).
Definition setQuantity (x : string) : M unit :=
  set_view (λ v, Build_View (orders v) (ordersLoading v) (ordersError v)
                   (users v) (usersError v) (products v) (productsError v)
                   (userId v) (productId v) x (creating v) (createError v)).
Definition setCreating (x : bool) : M unit :=
  set_view (λ v, Build_View (orders v) (ordersLoading v) (ordersError v)
                   (users v) (usersError v) (products v) (productsError v)
                   (userId v) (productId v) (quantity v) x (createError v)).
Definition setCreateError (x : option string) : M unit :=
  set_view (λ v, Build_View (orders v) (ordersLoading v) (ordersError v)
                   (users v) (usersError v) (products v) (productsError v)
                   (userId v) (productId v) (quantity v) (creating v) x).

Definition loadOrders : M unit :=
  finally
    (try_catch
       (setOrdersLoading true;;
        setOrdersError None;;
        res ← fetch network (ORDERS_BASE_URL env +:+ "/orders") no_init;
        check_ok res;;
        data ← res_json res;
        setOrders data)
       (λ err,
          let msg := message_or err "Не удалось загрузить заказы" in
          setOrdersError (Some msg);;
          showToast ToastError ("Ошибка загрузки заказов: " +:+ msg)))
    (setOrdersLoading false).

Definition loadUsers : M unit :=
  try_catch
    (setUsersError None;;
     res ← fetch network (USERS_BASE_URL env +:+ "/users") no_init;
     check_ok res;;
     data ← res_json res;
     setUsers data)
    (λ err,
       let msg := message_or err "Не удалось загрузить пользователей" in
       setUsersError (Some msg);;
       showToast ToastError ("Ошибка загрузки пользователей: " +:+ msg)).

Definition loadProducts : M unit :=
  try_catch
    (setProductsError None;;
     res ← fetch network (CATALOG_BASE_URL env +:+ "/products") no_init;
     check_ok res;;
     data ← res_json res;
     setProducts data)
    (λ err,
       let msg := message_or err "Не удалось загрузить товары" in
       setProductsError (Some msg);;
       showToast ToastError ("Ошибка загрузки товаров: " +:+ msg)).

(** The effect that runs once when the component mounts starts the three
    loaders in this order without awaiting them; here each one runs to its
    end before the next starts. *)
Definition mount : M unit :=
  loadOrders;;
  loadUsers;;
  loadProducts.

Definition handleCreate : M unit :=
  form ← get_view;
  setCreateError None;;
  if negb (String_ToBoolean (userId form)) then
    setCreateError (Some "Выберите пользователя")
  else if negb (String_ToBoolean (productId form)) then
    setCreateError (Some "Выберите товар")
  else
    let userIdNum := parseInt10 (userId form) in
    let productIdNum := parseInt10 (productId form) in
    let qtyNum := parseInt10 (quantity form) in
    if isNaN qtyNum || Number_le0 qtyNum then
      setCreateError (Some "Количество должно быть > 0")
    else
      finally
        (try_catch
           (setCreating true;;
            res ← fetch network (ORDERS_BASE_URL env +:+ "/orders")
              (post_json
                 (JObj [("user_id", JNum userIdNum);
                        ("items",
                         JArr [JObj [("product_id", JNum productIdNum);
                                     ("quantity", JNum qtyNum)]])]));
            check_ok res;;
            loadOrders;;
            showToast ToastSuccess "Заказ создан успешно";;
            setUserId "";;
            setProductId "";;
            setQuantity "1")
           (λ err,
              let msg := message_or err "Ошибка при создании заказа" in
              setCreateError (Some msg);;
              showToast ToastError msg))
        (setCreating false).
End Page.
End OrdersPage.

(** ** The router *)

(** One call of [navigate(to, options)] or one rendered [<Navigate>]:
    the target, the [replace] flag and the [from] of the [state], when
    given. *)
Record Navigation : Type := {
  nav_to : string;
  nav_replace : bool;
  nav_from : option string;
}.

(** *** [src/components/RequireAuth.tsx] *)

(** What [RequireAuth] renders: its children, or a [<Navigate>]. *)
Inductive Guarded : Type :=
  | Children
  | Redirect (nav : Navigation).

Section Gate.
Context {number : Type} {V : Type}.

Local Abbreviation M := (@M number V).

Definition RequireAuth : M Guarded :=
  auth ← useAuth;
  if negb (isAuthenticated auth)
  then mret (Redirect {| nav_to := "/login"; nav_replace := true; nav_from := None |})
  else mret Children.
End Gate.

(** *** The header of [src/App.tsx] *)

Module Header.
Section Component.
Context {number : Type}.

(** The header keeps no state of its own; its view is the list of the
    calls it made to [navigate], newest first. *)
Local Abbreviation M := (@M number (list Navigation)).

Definition navigate (to : string) : M unit :=
  set_view (cons {| nav_to := to; nav_replace := false; nav_from := None |}).

Definition handleLogout : M unit :=
  removeItem "authToken";;
  removeItem "authUsername";;
  navigate "/login".

Definition handleLoginClick : M unit :=
  navigate "/login".

(** The right side of the header: the label of the user next to the
    logout button, or the login button alone. *)
Inductive Right : Type :=
  | LoggedIn (label : string)
  | LoggedOut.

Definition render : M Right :=
  token ← getAuthToken;
  authUsername ← getItem "authUsername";
  let username := or_default authUsername "" in
  if nullable_ToBoolean token
  then mret (LoggedIn (if String_ToBoolean username
                       then "Пользователь: " +:+ username
                       else "Авторизован"))
  else mret LoggedOut.
End Component.
End Header.

(** *** [src/pages/DashboardPage.tsx] *)

Module DashboardPage.
Section Page.
Context {number : Type} `{!Runtime number}.
Variable env : ImportMetaEnv.
Variable network : list Request → Exchange.

Local Abbreviation value := (value number).

(** The [useState] cells of the component and the calls it made to
    [navigate], newest first. *)
Record View : Type := {
  health : value;
  healthError : option string;
  summary : value;
  summaryError : option string;
  loading : bool;
  navigations : list Navigation;
}.

Definition initial : View :=
  {| health := JNull; healthError := None; summary := JNull;
     summaryError := None; loading := true; navigations := [] |}.

Local Abbreviation M := (@M number View).

Definition setHealth (x : value) : M unit :=
  set_view (λ v, Build_View x (healthError v) (summary v) (summaryError v)
                   (loading v) (navigations v)).
Definition setHealthError (x : option string) : M unit :=
  set_view (λ v, Build_View (health v) x (summary v) (summaryError v)
                   (loading v) (navigations v)).
Definition setSummary (x : value) : M unit :=
  set_view (λ v, Build_View (health v) (healthError v) x (summaryError v)
                   (loading v) (navigations v)).
Definition setSummaryError (x : option string) : M unit :=
  set_view (λ v, Build_View (health v) (healthError v) (summary v) x
                   (loading v) (navigations v)).
Definition setLoading (x : bool) : M unit :=
  set_view (λ v, Build_View (health v) (healthError v) (summary v)
                   (summaryError v) x (navigations v)).

(** [navigate("/login", { replace: true, state: { from: "/" } })]. *)
Definition navigate_login : M unit :=
  set_view (λ v, Build_View (health v) (healthError v) (summary v)
                   (summaryError v) (loading v)
                   ({| nav_to := "/login"; nav_replace := true;
                       nav_from := Some "/" |} :: navigations v)).

(** The body shared by the two [catch] blocks once the error text is
    stored: on a status 401 the toast, the redirection and the early
    [return], which the result [true] stands for. *)
Definition expired (err : exn (number := number)) : M bool :=
  if decide (exn_status err = Some 401%N) then
    showToast ToastError "Сессия истекла, войдите заново";;
    navigate_login;;
    setLoading false;;
    mret true
  else
    mret false.

(** The [load] of the mount effect; each [try] yields whether its [catch]
    returned from [load]. *)
Definition load : M unit :=
  setLoading true;;
  setHealthError None;;
  setSummaryError None;;
  returned ← try_catch
    (h ← apiGet env network "/health";
     setHealth h;;
     mret false)
    (λ err,
       setHealthError (Some (message_or err "Ошибка запроса /health"));;
       expired err);
  if returned : bool then mret () else
  returned ← try_catch
    (s ← apiGet env network "/summary";
     setSummary s;;
     mret false)
    (λ err,
       setSummaryError (Some (message_or err "Ошибка запроса /summary"));;
       expired err);
  if returned : bool then mret () else
  setLoading false.
End Page.
End DashboardPage.

(** *** [src/pages/RegisterPage.tsx] *)

Module RegisterPage.
Section Page.
Context {number : Type} `{!Runtime number}.
Variable env : ImportMetaEnv.
Variable network : list Request → Exchange.
(** The message of the [TypeError] that reading a property of [null]
    throws, given the name of the property (it differs between engines). *)
Variable null_property_error : string → string.

Local Abbreviation value := (value number).

(** The [useState] cells of the component and the calls it made to
    [navigate], newest first. *)
Record View : Type := {
  username : string;
  email : string;
  password : string;
  loading : bool;
  error : option string;
  navigations : list Navigation;
}.

Definition initial : View :=
  {| username := ""; email := ""; password := ""; loading := false;
     error := None; navigations := [] |}.

Local Abbreviation M := (@M number View).

Definition setLoading (x : bool) : M unit :=
  set_view (λ v, Build_View (username v) (email v) (password v) x (error v)
                   (navigations v)).
Definition setError (x : option string) : M unit :=
  set_view (λ v, Build_View (username v) (email v) (password v) (loading v) x
                   (navigations v)).

(** [navigate("/", { replace: true })]. *)
Definition navigate_home : M unit :=
  set_view (λ v, Build_View (username v) (email v) (password v) (loading v)
                   (error v)
                   ({| nav_to := "/"; nav_replace := true; nav_from := None |}
                      :: navigations v)).

(** [x.k] where [x] may be [null]: reading a property of [null] or
    [undefined] throws a [TypeError]. *)
Definition read (x : value) (k : string) : M value :=
  match x with
  | JNull | JUndefined => throw (TypeError (null_property_error k))
  | _ => mret (prop x k)
  end.

(** [localStorage.setItem(k, x)] for an [x] of type [any]: the storage
    converts it to a string first, and the call throws when it cannot. *)
Definition setItem_any (k : string) (x : value) : M unit :=
  match ToString x with
  | Some text => setItem k text
  | None => throw (TypeError ToPrimitive_error)
  end.

(** The [msg] of a failed registration:
    [let msg = `HTTP ${res.status}`;
     try { const data = await res.json();
           if (typeof data.detail === "string") msg = data.detail; }
     catch { }]. *)
Definition failure_text (res : Response) : string :=
  match JSON_parse (resp_text res) with
  | Some (JNull | JUndefined) => "HTTP " +:+ pretty (resp_status res)
  | Some data =>
      match prop data "detail" with
      | JStr detail => detail
      | _ => "HTTP " +:+ pretty (resp_status res)
      end
  | None => "HTTP " +:+ pretty (resp_status res)
  end.

(** [handleSubmit] reads the three fields as they were when the component
    last rendered. *)
Definition handleSubmit : M unit :=
  form ← get_view;
  setError None;;
  if negb (String_ToBoolean (username form))
     || negb (String_ToBoolean (email form))
     || negb (String_ToBoolean (password form))
  then
    setError (Some "Заполните все поля")
  else
    finally
      (try_catch
         (setLoading true;;
          res ← fetch network (AUTH_BASE_URL env +:+ "/register")
            (post_json
               (JObj [("username", JStr (username form));
                      ("email", JStr (email form));
                      ("password", JStr (password form))]));
          (if negb (resp_ok res)
           then throw (Error (failure_text res))
           else mret ());;
          loginRes ← fetch network (AUTH_BASE_URL env +:+ "/login")
            (post_json
               (JObj [("username", JStr (username form));
                      ("password", JStr (password form))]));
          (if negb (resp_ok loginRes)
           then throw (Error ("Ошибка авто-входа (HTTP "
                              +:+ pretty (resp_status loginRes) +:+ ")"))
           else mret ());;
          loginData ← res_json loginRes;
          access_token ← read loginData "access_token";
          setItem_any "authToken" access_token;;
          setItem "authUsername" (username form);;
          showToast ToastSuccess "Аккаунт создан и выполнен вход";;
          navigate_home)
         (λ err,
            let msg := message_or err "Ошибка регистрации" in
            setError (Some msg);;
            showToast ToastError msg))
      (setLoading false).
End Page.
End RegisterPage.

(** ** A reference runtime

    An executable instance of [Runtime]: a reader and a writer of JSON
    texts whose numbers are integers, on which the scenarios of the
    specification are run.  Texts with a fraction or an exponent are
    outside its grammar. *)

Module Reference.

Definition is_ws (c : ascii) : bool :=
  (c =? " ")%char || (c =? "009")%char || (c =? "010")%char || (c =? "013")%char.

Fixpoint skip_ws (s : string) : string :=
  match s with
  | String c r => if is_ws c then skip_ws r else s
  | "" => ""
  end.

Fixpoint strip_prefix (p s : string) : option string :=
  match p, s with
  | "", _ => Some s
  | String a p', String b s' => if (a =? b)%char then strip_prefix p' s' else None
  | String _ _, "" => None
  end.

Definition digit (c : ascii) : option Z :=
  let n := Z.of_nat (nat_of_ascii c) in
  if (48 <=? n)%Z && (n <=? 57)%Z then Some (n - 48)%Z else None.

Fixpoint digits (s : string) (acc : Z) : Z * string :=
  match s with
  | String c r =>
      match digit c with
      | Some d => digits r (10 * acc + d)%Z
      | None => (acc, s)
      end
  | "" => (acc, "")
  end.

(** The text after an integer must not go on as a fraction or exponent. *)
Definition integer_ends (s : string) : bool :=
  match s with
  | String c _ => negb ((c =? ".")%char || (c =? "e")%char || (c =? "E")%char)
  | "" => true
  end.

Definition parse_unsigned (s : string) : option (Z * string) :=
  match s with
  | String c r =>
      match digit c with
      | Some d =>
          let '(n, r') :=
            if (d =? 0)%Z then (0%Z, r) else digits r d in
          match r' with
          | String c' _ =>
              if (d =? 0)%Z && bool_decide (is_Some (digit c')) then None
              else if integer_ends r' then Some (n, r') else None
          | "" => Some (n, r')
          end
      | None => None
      end
  | "" => None
  end.

Definition parse_integer (s : string) : option (Z * string) :=
  match s with
  | String "-" r =>
      match parse_unsigned r with
      | Some (n, r') => Some ((- n)%Z, r')
      | None => None
      end
  | _ => parse_unsigned s
  end.

Definition hex (c : ascii) : option N :=
  let n := N.of_nat (nat_of_ascii c) in
  if (48 <=? n)%N && (n <=? 57)%N then Some (n - 48)%N
  else if (65 <=? n)%N && (n <=? 70)%N then Some (n - 55)%N
  else if (97 <=? n)%N && (n <=? 102)%N then Some (n - 87)%N
  else None.

Definition byte (n : N) : ascii := ascii_of_N (n mod 256).

(** The UTF-8 bytes of a code point of the basic plane. *)
Definition utf8 (cp : N) : string :=
  if (cp <? 128)%N then String (byte cp) ""
  else if (cp <? 2048)%N then
    String (byte (192 + cp / 64)) (String (byte (128 + cp mod 64)) "")
  else
    String (byte (224 + cp / 4096))
      (String (byte (128 + (cp / 64) mod 64))
         (String (byte (128 + cp mod 64)) "")).

Definition unescape (c : ascii) : option ascii :=
  if (c =? "034")%char then Some "034"%char
  else if (c =? "\")%char then Some "\"%char
  else if (c =? "/")%char then Some "/"%char
  else if (c =? "b")%char then Some "008"%char
  else if (c =? "f")%char then Some "012"%char
  else if (c =? "n")%char then Some "010"%char
  else if (c =? "r")%char then Some "013"%char
  else if (c =? "t")%char then Some "009"%char
  else None.

(** The characters of a string literal, after its opening quote. *)
Fixpoint parse_chars (s : string) : option (string * string) :=
  match s with
  | "" => None
  | String c r =>
      if (c =? "034")%char then Some ("", r)
      else if (c =? "\")%char then
        match r with
        | String "u" (String h1 (String h2 (String h3 (String h4 r')))) =>
            match hex h1, hex h2, hex h3, hex h4, parse_chars r' with
            | Some a, Some b, Some c, Some d, Some (str, rest) =>
                Some (utf8 (4096 * a + 256 * b + 16 * c + d) +:+ str, rest)
            | _, _, _, _, _ => None
            end
        | String e r' =>
            match unescape e, parse_chars r' with
            | Some x, Some (str, rest) => Some (String x str, rest)
            | _, _ => None
            end
        | "" => None
        end
      else if (nat_of_ascii c <? 32)%nat then None
      else
        match parse_chars r with
        | Some (str, rest) => Some (String c str, rest)
        | None => None
        end
  end.

(** [obj[k] = v] on the properties of an object under construction: a
    repeated key keeps its place and takes the later value. *)
Fixpoint obj_set (k : string) (v : value Z) (props : list (string * value Z))
    : list (string * value Z) :=
  match props with
  | [] => [(k, v)]
  | (k', v') :: rest =>
      if String.eqb k k' then (k', v) :: rest else (k', v') :: obj_set k v rest
  end.

Definition obj_of_members (members : list (string * value Z)) : value Z :=
  JObj (fold_left (λ props kv, obj_set kv.1 kv.2 props) members []).

Fixpoint parse_value (fuel : nat) (s : string) : option (value Z * string) :=
  match fuel with
  | 0 => None
  | S fuel =>
      match skip_ws s with
      | "" => None
      | String c r as s' =>
          if (c =? "n")%char then
            r' ← strip_prefix "ull" r; Some (JNull, r')
          else if (c =? "t")%char then
            r' ← strip_prefix "rue" r; Some (JBool true, r')
          else if (c =? "f")%char then
            r' ← strip_prefix "alse" r; Some (JBool false, r')
          else if (c =? "034")%char then
            '(str, r') ← parse_chars r; Some (JStr str, r')
          else if (c =? "[")%char then
            match skip_ws r with
            | String "]" r' => Some (JArr [], r')
            | _ => '(items, r') ← parse_elems fuel r; Some (JArr items, r')
            end
          else if (c =? "{")%char then
            match skip_ws r with
            | String "}" r' => Some (JObj [], r')
            | _ =>
                '(members, r') ← parse_members fuel r;
                Some (obj_of_members members, r')
            end
          else
            '(n, r') ← parse_integer s'; Some (JNum n, r')
      end
  end
with parse_elems (fuel : nat) (s : string) : option (list (value Z) * string) :=
  match fuel with
  | 0 => None
  | S fuel =>
      '(v, r) ← parse_value fuel s;
      match skip_ws r with
      | String "," r' => '(vs, r'') ← parse_elems fuel r'; Some (v :: vs, r'')
      | String "]" r' => Some ([v], r')
      | _ => None
      end
  end
with parse_members (fuel : nat) (s : string)
    : option (list (string * value Z) * string) :=
  match fuel with
  | 0 => None
  | S fuel =>
      match skip_ws s with
      | String "034" r =>
          '(k, r1) ← parse_chars r;
          match skip_ws r1 with
          | String ":" r2 =>
              '(v, r3) ← parse_value fuel r2;
              match skip_ws r3 with
              | String "," r4 =>
                  '(ms, r5) ← parse_members fuel r4; Some ((k, v) :: ms, r5)
              | String "}" r4 => Some ([(k, v)], r4)
              | _ => None
              end
          | _ => None
          end
      | _ => None
      end
  end.

Definition parse (text : string) : option (value Z) :=
  match parse_value (2 * String.length text + 2) text with
  | Some (v, rest) => if String.eqb (skip_ws rest) "" then Some v else None
  | None => None
  end.

Definition hex_digit (n : N) : ascii :=
  if (n <? 10)%N then ascii_of_N (48 + n) else ascii_of_N (87 + n).

Definition escape (c : ascii) : string :=
  if (c =? "034")%char then String "\" (String "034" "")
  else if (c =? "\")%char then "\\"
  else if (c =? "008")%char then "\b"
  else if (c =? "012")%char then "\f"
  else if (c =? "010")%char then "\n"
  else if (c =? "013")%char then "\r"
  else if (c =? "009")%char then "\t"
  else
    let n := N_of_ascii c in
    if (n <? 32)%N
    then "\u00" +:+ String (hex_digit (n / 16)) (String (hex_digit (n mod 16)) "")
    else String c "".

Fixpoint quote_chars (s : string) : string :=
  match s with
  | "" => String "034" ""
  | String c r => escape c +:+ quote_chars r
  end.

Definition quote (s : string) : string := String "034" (quote_chars s).

Fixpoint stringify (v : value Z) : string :=
  match v with
  | JUndefined | JNull => "null"
  | JBool true => "true"
  | JBool false => "false"
  | JNum n => pretty n
  | JStr s => quote s
  | JArr items =>
      "[" +:+ join "," (map stringify items) +:+ "]"
  | JObj props =>
      "{" +:+
      join ","
        ((fix members (l : list (string * value Z)) : list string :=
            match l with
            | [] => []
            | (_, JUndefined) :: rest => members rest
            | (k, x) :: rest => (quote k +:+ ":" +:+ stringify x) :: members rest
            end) props)
      +:+ "}"
  end.

#[export] Instance runtime : Runtime Z := {|
  Number_ToBoolean n := negb (n =? 0)%Z;
  Number_toString n := pretty n;
  JSON_parse := parse;
  JSON_stringify := stringify;
  JSON_error text := "Unexpected token in JSON";
  ToPrimitive_error := "Cannot convert object to primitive value";
|}.

End Reference.

#[global] Existing Instance Reference.runtime.

(** ** The texts of the scenarios *)

Module Scenario.

Definition dq : string := String "034" "".

(** The text [{"detail":"expired"}], with its quotes. *)
Definition expired_body : string :=
  "{" +:+ dq +:+ "detail" +:+ dq +:+ ":" +:+ dq +:+ "expired" +:+ dq +:+ "}".

(** The text [{"detail":""}]. *)
Definition empty_detail_body : string :=
  "{" +:+ dq +:+ "detail" +:+ dq +:+ ":" +:+ dq +:+ dq +:+ "}".

(** The text [{"id":7,"username":"bob","email":null}]. *)
Definition created_body : string :=
  "{" +:+ dq +:+ "id" +:+ dq +:+ ":7," +:+ dq +:+ "username" +:+ dq +:+ ":"
  +:+ dq +:+ "bob" +:+ dq +:+ "," +:+ dq +:+ "email" +:+ dq +:+ ":null}".

Definition env : ImportMetaEnv :=
  {| VITE_API_URL := None; VITE_AUTH_API_URL := None;
     VITE_USERS_API_URL := None; VITE_CATALOG_API_URL := None;
     VITE_ORDERS_API_URL := None |}.

(** A network that answers every request with the same response. *)
Definition answers (status : N) (text : string) : list Request → Exchange :=
  λ _, Responded {| resp_status := status; resp_text := text |}.

(** A network that cannot be reached. *)
Definition down : list Request → Exchange :=
  λ _, Unreachable "Failed to fetch".

(** A browser whose storage holds the given entries. *)
Definition browser (entries : list (string * string)) : World :=
  {| localStorage := list_to_map entries; sent := []; toasts := [] |}.

(** The session of the scenarios: alice, logged in. *)
Definition alice : World :=
  browser [("authToken", "abc123"); ("authUsername", "alice")].

End Scenario.

(** ** Predicates on computations and on the network *)

(** What [RequireAuth] renders for a visitor without a session. *)
Definition to_login : Guarded :=
  Redirect {| nav_to := "/login"; nav_replace := true; nav_from := None |}.

Section Invariants.
Context {number : Type} {V : Type}.

Local Abbreviation M := (@M number V).

(** A computation that leaves the storage as it found it, from every view
    and every world. *)
Definition keeps_storage {A : Type} (m : M A) : Prop :=
  ∀ (v : V) (w : World), localStorage (world_after (m v w)) = localStorage w.

(** A computation that returns, from every view and every world. *)
Definition never_throws {A : Type} (m : M A) : Prop :=
  ∀ (v : V) (w : World), ∃ a : A, outcome (m v w) = Ret a.
End Invariants.

(** The network answers the request number [n], counting from 0, among
    those issued after the history [h] with [ex], whatever is requested. *)
Definition answers_nth (network : list Request → Exchange)
    (h : list Request) (n : nat) (ex : Exchange) : Prop :=
  ∀ fresh : list Request, length fresh = S n → network (fresh ++ h)%list = ex.

(** Integers as the numbers of the forms: the leading integer of the text
    is read, and where the browser gives [NaN] the result is [0], which the
    forms reject as well. *)
Module ReferenceNumeric.

Definition leading_integer (s : string) : Z :=
  match Reference.skip_ws s with
  | String "-" r => (- (Reference.digits r 0).1)%Z
  | String "+" r => (Reference.digits r 0).1
  | s' => (Reference.digits s' 0).1
  end.

#[export] Instance numeric : Numeric Z := {|
  parseFloat := leading_integer;
  parseInt10 := leading_integer;
  isNaN _ := false;
  Number_le0 n := (n <=? 0)%Z;
|}.

End ReferenceNumeric.

#[global] Existing Instance ReferenceNumeric.numeric.

(** ** Networks and inputs for the runs *)

Module Script.

(** A network that answers the requests in turn with the given replies,
    and cannot be reached once they are used up. *)
Definition scripted (replies : list Exchange) : list Request → Exchange :=
  λ h, default (Unreachable "Failed to fetch") (replies !! (length h - 1)).

Definition reply (status : N) (text : string) : Exchange :=
  Responded {| resp_status := status; resp_text := text |}.

(** The message of V8 for a property read on [null]. *)
Definition null_property_error (k : string) : string :=
  "Cannot read properties of null (reading '" +:+ k +:+ "')".

(** A browser with a session and one key that is not of the session. *)
Definition themed : World :=
  Scenario.browser [("authToken", "abc123"); ("authUsername", "alice");
                    ("authRole", "admin"); ("theme", "dark")].

Definition catalog_form (name price : string) : CatalogPage.View (number := Z) :=
  {| CatalogPage.products := JArr []; CatalogPage.loading := false;
     CatalogPage.error := None; CatalogPage.name := name;
     CatalogPage.price := price; CatalogPage.inStock := true;
     CatalogPage.creating := false; CatalogPage.createError := None |}.

Definition users_form (username email : string) : UsersPage.View (number := Z) :=
  {| UsersPage.users := JArr []; UsersPage.loading := false;
     UsersPage.error := None; UsersPage.username := username;
     UsersPage.email := email; UsersPage.creating := false;
     UsersPage.createError := None |}.

Definition orders_form (userId productId quantity : string)
    : OrdersPage.View (number := Z) :=
  {| OrdersPage.orders := JArr []; OrdersPage.ordersLoading := false;
     OrdersPage.ordersError := None; OrdersPage.users := JArr [];
     OrdersPage.usersError := None; OrdersPage.products := JArr [];
     OrdersPage.productsError := None; OrdersPage.userId := userId;
     OrdersPage.productId := productId; OrdersPage.quantity := quantity;
     OrdersPage.creating := false; OrdersPage.createError := None |}.

Definition register_form (username email password : string) : RegisterPage.View :=
  {| RegisterPage.username := username; RegisterPage.email := email;
     RegisterPage.password := password; RegisterPage.loading := false;
     RegisterPage.error := None; RegisterPage.navigations := [] |}.

End Script.

(** * Properties *)

(** Unfolds the operations of the monad so that a computation reduces to
    the triple it yields. *)
Ltac unfold_monad :=
  unfold mbind, M_bind, bind, mret, M_ret, ret, throw, try_catch, finally,
    set_view, get_view, getItem, setItem, removeItem, showToast, fetch,
    outcome, view_after, world_after in *.

(** ** The shape of one call of [request] *)

Section RequestFacts.
Context {number : Type} `{!Runtime number}.
Variable env : ImportMetaEnv.
Variable network : list Request → Exchange.
Context {V : Type}.

Local Abbreviation value := (value number).
Local Abbreviation call := (@call number).

Lemma perform_request (c : call) :
  perform env network (V := V) c = request env network (path_of c) (options_of c).
Proof. by destruct c. Qed.

(** Every run of [request] hands exactly one request to [fetch]. *)
Lemma request_sent path options (v : V) w :
  sent (world_after (request env network path options v w))
  = issued env path options (localStorage w) :: sent w.
Proof.
  unfold request, issued, getAuthToken. unfold_monad.
  cbn. destruct (network _) as [resp|reason]; cbn; [|done].
  destruct (resp_ok resp); cbn; [done|].
  by destruct (decide _).
Qed.

(** The view of the calling component is not touched. *)
Lemma request_view path options (v : V) w :
  view_after (request env network path options v w) = v.
Proof.
  unfold request, getAuthToken. unfold_monad.
  cbn. destruct (network _) as [resp|reason]; cbn; [|done].
  destruct (resp_ok resp); cbn; [done|].
  by destruct (decide _).
Qed.

(** No response: the rejection of [fetch] goes to the caller as it is and
    the storage is not touched. *)
Lemma request_unreachable path options (v : V) w reason :
  last_exchange network (world_after (request env network path options v w))
    = Unreachable reason →
  outcome (request env network path options v w) = Throw (TypeError reason)
  ∧ localStorage (world_after (request env network path options v w))
    = localStorage w.
Proof.
  unfold last_exchange. rewrite request_sent.
  unfold request, issued, getAuthToken. unfold_monad.
  cbn. intros ->. done.
Qed.

(** A 2xx response: the parsed body is returned and the storage is not
    touched. *)
Lemma request_ok path options (v : V) w resp :
  last_exchange network (world_after (request env network path options v w))
    = Responded resp →
  resp_ok resp = true →
  outcome (request env network path options v w)
    = Ret (parse_body (resp_text resp))
  ∧ localStorage (world_after (request env network path options v w))
    = localStorage w.
Proof.
  unfold last_exchange. rewrite request_sent.
  unfold request, issued, getAuthToken. unfold_monad.
  cbn. intros -> Hok. cbn. by rewrite Hok.
Qed.

(** A response that is not 2xx: what [new ApiError(...)] throws is
    thrown, after the token and the user name have been removed when the
    status is 401. *)
Lemma request_failed path options (v : V) w resp :
  last_exchange network (world_after (request env network path options v w))
    = Responded resp →
  resp_ok resp = false →
  outcome (request env network path options v w)
    = Throw (new_ApiError
               (failure_message (parse_body (resp_text resp)) (resp_status resp))
               (resp_status resp)
               (parse_body (resp_text resp)))
  ∧ localStorage (world_after (request env network path options v w))
    = if decide (resp_status resp = 401%N)
      then delete "authUsername" (delete "authToken" (localStorage w))
      else localStorage w.
Proof.
  unfold last_exchange. rewrite request_sent.
  unfold request, issued, getAuthToken. unfold_monad.
  cbn. intros -> Hok. cbn. rewrite Hok. cbn.
  by destruct (decide _).
Qed.

End RequestFacts.

(** ** The session store *)

Section Session.
Context {number : Type} {V : Type}.

Local Abbreviation M := (@M number V).

(** [useAuth] reads the three slots and leaves everything as it was. *)
Lemma useAuth_run (v : V) (w : World) :
  (useAuth : M Auth) v w
  = (Ret {| token := localStorage w !! "authToken";
            username := localStorage w !! "authUsername";
            role := or_default (localStorage w !! "authRole") "user";
            isAuthenticated := nullable_ToBoolean (localStorage w !! "authToken") |},
     v, w).
Proof. reflexivity. Qed.

(** [logout] removes the three slots and nothing else. *)
Lemma logout_run (v : V) (w : World) :
  (logout : M unit) v w
  = (Ret (), v,
     set_localStorage
       (λ ls, delete "authRole" (delete "authUsername" (delete "authToken" ls)))
       w).
Proof. reflexivity. Qed.

(** C9: calling [logout] (the [clear()] of the session store) twice in
    succession, from any state, leaves the same state as calling it once,
    and in that state [useAuth] reads no token, no user name, the default
    role [user], and is not authenticated. *)
Theorem logout_idempotent (v : V) (w : World) :
  ((logout : M unit);; logout) v w = (logout : M unit) v w
  ∧ (useAuth : M Auth) v (world_after ((logout : M unit) v w))
    = (Ret {| token := None; username := None; role := "user";
              isAuthenticated := false |},
       v, world_after ((logout : M unit) v w)).
Proof.
  split.
  - unfold_monad. rewrite !logout_run. unfold set_localStorage; cbn.
    do 2 f_equal.
    apply map_eq; intros k. rewrite !lookup_delete.
    by repeat case_decide.
  - rewrite useAuth_run, logout_run. unfold world_after; cbn.
    rewrite lookup_delete_eq.
    rewrite !(lookup_delete_ne _ "authRole") by done.
    rewrite lookup_delete_eq.
    rewrite lookup_delete_ne by done.
    by rewrite lookup_delete_eq.
Qed.

End Session.

(** ** The API client *)

Section Claims.
Context {number : Type} `{!Runtime number}.
Variable env : ImportMetaEnv.
Variable network : list Request → Exchange.
Context {V : Type}.

Local Abbreviation value := (value number).
Local Abbreviation call := (@call number).
Local Abbreviation M := (@M number V).
Local Abbreviation perform := (perform env network (V := V)).

(** The [Authorization] header of the request that a call issues. *)
Lemma header_issued (c : call) (ls : gmap string string) :
  header "Authorization" (issued env (path_of c) (options_of c) ls)
  = match ls !! "authToken" with
    | Some t => if String_ToBoolean t then Some ("Bearer " +:+ t) else None
    | None => None
    end.
Proof.
  assert (Hbase : base_headers (options_of c) !! "Authorization" = None).
  { unfold base_headers. apply lookup_union_None. split.
    - destruct c; apply lookup_empty.
    - by apply lookup_singleton_ne. }
  unfold header, issued, with_token; cbn.
  destruct (ls !! "authToken") as [t|]; [|done].
  destruct (String_ToBoolean t); [|done].
  apply lookup_insert_eq.
Qed.

Lemma String_ToBoolean_true (s : string) : String_ToBoolean s = true ↔ s ≠ "".
Proof. destruct s; cbn; split; done. Qed.

(** What [failure_message] picks when the body carries a non-empty
    [detail] string. *)
Lemma failure_message_detail (props : list (string * value)) (status : N) (x : string) :
  obj_get "detail" props = JStr x → x ≠ "" →
  ToString (failure_message (JObj props) status) = Some x.
Proof.
  intros Hd Hx%String_ToBoolean_true.
  unfold failure_message; cbn. rewrite Hd; cbn. rewrite Hx; cbn. by rewrite Hx.
Qed.

(** What [failure_message] synthesizes when the body names neither a
    [detail] nor a [message]. *)
Lemma failure_message_default (data : value) (status : N) :
  prop data "detail" = JUndefined → prop data "message" = JUndefined →
  ToString (failure_message data status)
  = Some ("Request failed with status " +:+ pretty status).
Proof.
  intros Hd Hm. unfold failure_message. rewrite Hd, Hm; cbn.
  destruct (ToBoolean data) eqn:Hdata; cbn; [done|].
  by rewrite Hdata.
Qed.

(** [new ApiError(...)] gives the error itself when the message has a
    string conversion. *)
Lemma new_ApiError_Some (message : value) (status : N) (data : value) (text : string) :
  ToString message = Some text →
  new_ApiError message status data = ApiError text status data.
Proof. intros Htext. unfold new_ApiError. by rewrite Htext. Qed.


(** C1: whenever the response to a call of [apiGet] or [apiPost] has status
    401, [useAuth] reads no token after the call, whatever was stored
    before; and when the token [abc123] is stored and the 401 response has
    the body [{"detail":"expired"}], the failure thrown has the message
    [expired]. *)
Theorem unauthorized_clears_token (c : call) (v : V) (w : World) :
  let r := perform c v w in
  (∀ resp,
     last_exchange network (world_after r) = Responded resp →
     resp_status resp = 401%N →
     ∃ a, (useAuth : M Auth) (view_after r) (world_after r)
          = (Ret a, view_after r, world_after r)
          ∧ token a = None)
  ∧ (localStorage w !! "authToken" = Some "abc123" →
     last_exchange network (world_after r)
       = Responded {| resp_status := 401; resp_text := Scenario.expired_body |} →
     JSON_parse Scenario.expired_body = Some (JObj [("detail", JStr "expired")]) →
     ∃ e, outcome r = Throw e ∧ exn_message e = "expired"
          ∧ localStorage (world_after r) !! "authToken" = None).
Proof.
  intros r. subst r. rewrite perform_request. split.
  - intros resp Hnet Hstatus.
    destruct (request_failed _ _ _ _ _ _ _ Hnet) as [_ Hls].
    { unfold resp_ok. by rewrite Hstatus. }
    rewrite decide_True in Hls by done.
    eexists. rewrite useAuth_run. split; [done|]. cbn.
    rewrite Hls, lookup_delete_ne by done. apply lookup_delete_eq.
  - intros _ Hnet Hparse.
    destruct (request_failed _ _ _ _ _ _ _ Hnet) as [Hout Hls]; [done|].
    rewrite decide_True in Hls by done.
    eexists. split; [exact Hout|]. split.
    + unfold parse_body. cbn. rewrite Hparse. reflexivity.
    + rewrite Hls, lookup_delete_ne by done. apply lookup_delete_eq.
Qed.

(** C3, as amended: whenever the response to a call has status 401, the
    call fails after the token and the user name have been removed from
    the storage, so neither slot holds a value after the call, and the
    failure is an [ApiError] with the status 401 when the message picked
    from the body has a string conversion; and [logout] (the [clear()] of
    the session store) removes the three slots. *)
Theorem unauthorized_removes_token_and_username (c : call) (v : V) (w : World) :
  let r := perform c v w in
  (∀ resp,
     last_exchange network (world_after r) = Responded resp →
     resp_status resp = 401%N →
     (∃ e, outcome r = Throw e
           ∧ ∀ message,
               ToString (failure_message (parse_body (resp_text resp)) 401)
                 = Some message →
               e = ApiError message 401 (parse_body (resp_text resp)))
     ∧ localStorage (world_after r) !! "authToken" = None
     ∧ localStorage (world_after r) !! "authUsername" = None)
  ∧ (let cleared := localStorage (world_after ((logout : M unit) v w)) in
     cleared !! "authToken" = None
     ∧ cleared !! "authUsername" = None
     ∧ cleared !! "authRole" = None).
Proof.
  intros r. subst r. rewrite perform_request. split.
  - intros resp Hnet Hstatus.
    destruct (request_failed _ _ _ _ _ _ _ Hnet) as [Hout Hls].
    { unfold resp_ok. by rewrite Hstatus. }
    rewrite decide_True in Hls by done. rewrite Hls. split.
    + eexists. split; [exact Hout|]. rewrite Hstatus.
      intros message Hmessage. by apply new_ApiError_Some.
    + split; [|apply lookup_delete_eq].
      rewrite lookup_delete_ne by done. apply lookup_delete_eq.
  - rewrite logout_run. unfold world_after; cbn.
    rewrite !lookup_delete. by repeat case_decide.
Qed.



(** C4, as amended: a call issues one request; when the storage holds a
    non-empty token [t], that request carries the header
    [Authorization: Bearer t]; when the storage holds no token, or holds the
    empty string as the token, no [Authorization] header is attached. *)
Theorem bearer_header (c : call) (v : V) (w : World) :
  let r := perform c v w in
  ∃ req,
    sent (world_after r) = req :: sent w
    ∧ (∀ t, localStorage w !! "authToken" = Some t → t ≠ "" →
         header "Authorization" req = Some ("Bearer " +:+ t))
    ∧ (localStorage w !! "authToken" = None
       ∨ localStorage w !! "authToken" = Some "" →
       header "Authorization" req = None).
Proof.
  intros r. subst r. rewrite perform_request.
  eexists. split; [apply request_sent|]. rewrite header_issued. split.
  - intros t -> Ht%String_ToBoolean_true. by rewrite Ht.
  - by intros [-> | ->].
Qed.

(** C5, as amended: for a response with a status outside 200..299, when
    the parsed body is an object whose [detail] is a non-empty string [x],
    the message of the failure is [x]; and when the parsed body has neither
    a [detail] nor a [message], the message is
    [Request failed with status] followed by the status in decimal. *)
Theorem failure_message_of_body (c : call) (v : V) (w : World) (resp : Response) :
  let r := perform c v w in
  last_exchange network (world_after r) = Responded resp →
  resp_ok resp = false →
  ∃ e, outcome r = Throw e
       ∧ (∀ props x,
            parse_body (resp_text resp) = JObj props →
            obj_get "detail" props = JStr x → x ≠ "" →
            exn_message e = x)
       ∧ (prop (parse_body (resp_text resp)) "detail" = JUndefined →
          prop (parse_body (resp_text resp)) "message" = JUndefined →
          exn_message e
          = "Request failed with status " +:+ pretty (resp_status resp)).
Proof.
  intros r Hnet Hok. subst r. rewrite perform_request in *.
  destruct (request_failed _ _ _ _ _ _ _ Hnet Hok) as [Hout _].
  eexists. split; [exact Hout|]. split.
  - intros props x Hbody Hd Hx. rewrite Hbody.
    by rewrite (new_ApiError_Some _ _ _ x (failure_message_detail _ _ _ Hd Hx)).
  - intros Hd Hm.
    by rewrite (new_ApiError_Some _ _ _ _ (failure_message_default _ _ Hd Hm)).
Qed.

(** C6: for a response with a status in 200..299, when the body is a text
    that [JSON.parse] reads as [x], the call returns [x]; in particular,
    when the body is [JSON.stringify x] and parsing gives [x] back, the call
    returns [x]; and when the body is empty, the call returns [null]. *)
Theorem success_returns_parsed_body (c : call) (v : V) (w : World) (resp : Response) :
  let r := perform c v w in
  last_exchange network (world_after r) = Responded resp →
  resp_ok resp = true →
  (∀ x, JSON_parse (resp_text resp) = Some x → resp_text resp ≠ "" →
        outcome r = Ret x)
  ∧ (∀ x, resp_text resp = JSON_stringify x →
          JSON_parse (JSON_stringify x) = Some x → JSON_stringify x ≠ "" →
          outcome r = Ret x)
  ∧ (resp_text resp = "" → outcome r = Ret JNull).
Proof.
  intros r Hnet Hok. subst r. rewrite perform_request in *.
  destruct (request_ok _ _ _ _ _ _ _ Hnet Hok) as [-> _].
  assert (Hparsed : ∀ x, JSON_parse (resp_text resp) = Some x →
                         resp_text resp ≠ "" →
                         parse_body (resp_text resp) = x).
  { intros x Hx Htext%String_ToBoolean_true.
    unfold parse_body. by rewrite Htext, Hx. }
  split; [|split].
  - intros x Hx Htext. f_equal. by apply Hparsed.
  - intros x Htext Hx Hne. f_equal. apply Hparsed; by rewrite Htext.
  - intros ->. done.
Qed.

(** C10: in every state of the storage, [useAuth().isAuthenticated] is true
    exactly when the request that a call of the client issues in that state
    carries an [Authorization] header; in particular, when the stored token
    is the empty string, the gate is false and no header is attached. *)
Theorem gate_agrees_with_client (c : call) (v : V) (w : World) :
  let r := perform c v w in
  ∃ a req,
    (useAuth : M Auth) v w = (Ret a, v, w)
    ∧ sent (world_after r) = req :: sent w
    ∧ (isAuthenticated a = true ↔ is_Some (header "Authorization" req))
    ∧ (localStorage w !! "authToken" = Some "" →
       isAuthenticated a = false ∧ header "Authorization" req = None).
Proof.
  intros r. subst r. rewrite perform_request.
  do 2 eexists. split; [apply useAuth_run|]. split; [apply request_sent|].
  rewrite header_issued. cbn. split.
  - destruct (localStorage w !! "authToken") as [t|]; cbn.
    + destruct (String_ToBoolean t); split; (done || by intros []).
    + split; (done || by intros []).
  - by intros ->.
Qed.

End Claims.

(** ** The pages that bypass the client *)

Section DirectFacts.
Context {number : Type} `{!Runtime number} {V : Type}.
Variable network : list Request → Exchange.

Local Abbreviation M := (@M number V).

(** A computation that issues no request is direct. *)
Lemma direct_silent {A} (m : M A) :
  (∀ v w, sent (world_after (m v w)) = sent w) → direct m.
Proof. intros Hm v w. exists []. by rewrite Hm. Qed.

Lemma direct_bind {A B} (m : M A) (k : A → M B) :
  direct m → (∀ a, direct (k a)) → direct (m ≫= k).
Proof.
  intros Hm Hk v w. destruct (Hm v w) as (fresh1 & Hsent1 & Hall1).
  unfold_monad. destruct (m v w) as [[[a|e] v1] w1]; cbn in *.
  - destruct (Hk a v1 w1) as (fresh2 & Hsent2 & Hall2).
    exists (fresh2 ++ fresh1)%list. split.
    + unfold_monad. by rewrite Hsent2, Hsent1, (assoc_L (++)).
    + by apply Forall_app.
  - by exists fresh1.
Qed.

Lemma direct_try_catch {A} (body : M A) (handler : exn → M A) :
  direct body → (∀ e, direct (handler e)) → direct (try_catch body handler).
Proof.
  intros Hm Hk v w. destruct (Hm v w) as (fresh1 & Hsent1 & Hall1).
  unfold_monad. destruct (body v w) as [[[a|e] v1] w1]; cbn in *.
  - by exists fresh1.
  - destruct (Hk e v1 w1) as (fresh2 & Hsent2 & Hall2).
    exists (fresh2 ++ fresh1)%list. split.
    + unfold_monad. by rewrite Hsent2, Hsent1, (assoc_L (++)).
    + by apply Forall_app.
Qed.

Lemma direct_finally {A} (body : M A) (cleanup : M unit) :
  direct body → direct cleanup → direct (finally body cleanup).
Proof.
  intros Hm Hk v w. destruct (Hm v w) as (fresh1 & Hsent1 & Hall1).
  unfold_monad. destruct (body v w) as [[r v1] w1]; cbn in *.
  destruct (Hk v1 w1) as (fresh2 & Hsent2 & Hall2). unfold_monad.
  exists (fresh2 ++ fresh1)%list. split.
  - destruct (cleanup v1 w1) as [[[[]|e] v2] w2]; cbn in *;
      by rewrite Hsent2, Hsent1, (assoc_L (++)).
  - by apply Forall_app.
Qed.

Lemma direct_if {A} (b : bool) (m1 m2 : M A) :
  direct m1 → direct m2 → direct (if b then m1 else m2).
Proof. by destruct b. Qed.

(** A [fetch] whose [init] names no [Authorization] header is direct. *)
Lemma direct_fetch (url : string) (init : RequestInit) :
  header "Authorization" {| req_url := url; req_init := init |} = None →
  direct (fetch network url init : M Response).
Proof.
  intros Hinit v w. exists [{| req_url := url; req_init := init |}].
  split; [|by apply Forall_singleton].
  unfold_monad. cbn. by destruct (network _).
Qed.

Lemma direct_res_json (res : Response) : direct (res_json res : M _).
Proof. apply direct_silent. intros v w. unfold res_json. by destruct (JSON_parse _). Qed.

Lemma direct_check_ok (res : Response) : direct (check_ok res : M _).
Proof. apply direct_silent. intros v w. unfold check_ok. by destruct (negb _). Qed.

Lemma header_no_init (url : string) :
  header "Authorization" {| req_url := url; req_init := no_init |} = None.
Proof. reflexivity. Qed.

Lemma header_post_json (url : string) (body : value number) :
  header "Authorization" {| req_url := url; req_init := post_json body |} = None.
Proof. unfold header; cbn. by apply lookup_singleton_ne. Qed.

End DirectFacts.

(** Decomposes a goal [direct m] along the structure of [m]. *)
Ltac direct_step :=
  lazymatch goal with
  | |- direct (mbind _ _) => apply direct_bind; [|intros]
  | |- direct (try_catch _ _) => apply direct_try_catch; [|intros]
  | |- direct (finally _ _) => apply direct_finally
  | |- direct (if _ then _ else _) => apply direct_if
  | |- direct (let _ := _ in _) => cbv zeta
  | |- direct (fetch _ _ no_init) => apply direct_fetch, header_no_init
  | |- direct (fetch _ _ (post_json _)) => apply direct_fetch, header_post_json
  | |- direct (res_json _) => apply direct_res_json
  | |- direct (check_ok _) => apply direct_check_ok
  end.

Ltac direct_auto :=
  repeat first [direct_step | assumption | (apply direct_silent; reflexivity)].

Section DirectCalls.
Context {number : Type} `{!Runtime number, !Numeric number}.
Variable env : ImportMetaEnv.
Variable network : list Request → Exchange.

Lemma CatalogPage_loadProducts_direct :
  direct (CatalogPage.loadProducts env network).
Proof. unfold CatalogPage.loadProducts. direct_auto. Qed.

Lemma UsersPage_loadUsers_direct :
  direct (UsersPage.loadUsers env network).
Proof. unfold UsersPage.loadUsers. direct_auto. Qed.

Lemma OrdersPage_loadOrders_direct :
  direct (OrdersPage.loadOrders env network).
Proof. unfold OrdersPage.loadOrders. direct_auto. Qed.

Lemma OrdersPage_loadUsers_direct :
  direct (OrdersPage.loadUsers env network).
Proof. unfold OrdersPage.loadUsers. direct_auto. Qed.

Lemma OrdersPage_loadProducts_direct :
  direct (OrdersPage.loadProducts env network).
Proof. unfold OrdersPage.loadProducts. direct_auto. Qed.

(** C7: every request that the catalog, users and orders pages issue, on
    mount and on the submission of their forms, goes out without an
    [Authorization] header, whatever the storage holds. *)
Theorem pages_attach_no_credential :
  direct (CatalogPage.mount env network)
  ∧ direct (CatalogPage.handleCreate env network)
  ∧ direct (UsersPage.mount env network)
  ∧ direct (UsersPage.handleCreate env network)
  ∧ direct (OrdersPage.mount env network)
  ∧ direct (OrdersPage.handleCreate env network).
Proof.
  pose proof CatalogPage_loadProducts_direct.
  pose proof UsersPage_loadUsers_direct.
  pose proof OrdersPage_loadOrders_direct.
  pose proof OrdersPage_loadUsers_direct.
  pose proof OrdersPage_loadProducts_direct.
  repeat split.
  - done.
  - unfold CatalogPage.handleCreate. direct_auto.
  - done.
  - unfold UsersPage.handleCreate. direct_auto.
  - unfold OrdersPage.mount. direct_auto.
  - unfold OrdersPage.handleCreate. direct_auto.
Qed.

End DirectCalls.

(** ** The scenarios, run on the reference runtime *)

Section Runs.
Import Scenario.

Local Abbreviation perform net := (perform (number := Z) env net (V := unit)).
Local Abbreviation useAuth := (useAuth (number := Z) (V := unit)).

(** Before any call the gate lets alice in. *)
Example alice_is_authenticated :
  outcome (useAuth () alice)
  = Ret {| token := Some "abc123"; username := Some "alice"; role := "user";
           isAuthenticated := true |}.
Proof. reflexivity. Qed.

(** The reference reader gives back what the reference writer wrote, here
    on a nested value with escaped characters, and rejects a truncated
    text. *)
Example reference_round_trip :
  let x :=
    JObj [("id", JNum (-42)%Z);
          ("tags", JArr [JStr ("a" +:+ dq +:+ "b\c"); JBool false; JNull; JArr []]);
          ("owner", JObj [("name", JStr "bob"); ("email", JNull)])] in
  Reference.parse (Reference.stringify x) = Some x
  ∧ Reference.parse ("[1, 2" : string) = None
  ∧ Reference.parse "" = None.
Proof. repeat split; reflexivity. Qed.

(** Alice is logged in, [GET /summary] is answered 401 with the body
    [{"detail":"expired"}]: afterwards no token is read and the failure
    says [expired]. *)
Lemma unauthorized_clears_token_witness :
  let r := perform (answers 401 expired_body) (Get "/summary") () alice in
  (∃ a, useAuth (view_after r) (world_after r)
        = (Ret a, view_after r, world_after r)
        ∧ token a = None)
  ∧ (∃ e, outcome r = Throw e ∧ exn_message e = "expired"
          ∧ localStorage (world_after r) !! "authToken" = None).
Proof.
  destruct (unauthorized_clears_token env (answers 401 expired_body)
              (Get "/summary") () alice) as [Hany Hscenario].
  split.
  - exact (Hany _ eq_refl eq_refl).
  - exact (Hscenario eq_refl eq_refl eq_refl).
Defined.



(** An administrator is logged in and [GET /summary] is answered 401: the
    role stays in the storage. *)
Lemma unauthorized_keeps_role :
  let w := browser [("authToken", "abc123"); ("authUsername", "alice");
                    ("authRole", "admin")] in
  let r := perform (answers 401 expired_body) (Get "/summary") () w in
  last_exchange (answers 401 expired_body) (world_after r)
    = Responded {| resp_status := 401; resp_text := expired_body |}
  ∧ localStorage (world_after r) !! "authRole" = Some "admin"
  ∧ ¬ (localStorage (world_after r) !! "authToken" = None
       ∧ localStorage (world_after r) !! "authUsername" = None
       ∧ localStorage (world_after r) !! "authRole" = None).
Proof.
  cbv zeta. split; [reflexivity|]. split; [reflexivity|].
  intros (_ & _ & Hrole). vm_compute in Hrole. discriminate.
Qed.

Lemma unauthorized_removes_token_and_username_witness :
  let w := browser [("authToken", "abc123"); ("authUsername", "alice");
                    ("authRole", "admin")] in
  let r := perform (answers 401 expired_body) (Get "/summary") () w in
  ((∃ e, outcome r = Throw e
         ∧ e = ApiError "expired" 401 (JObj [("detail", JStr "expired")]))
   ∧ localStorage (world_after r) !! "authToken" = None
   ∧ localStorage (world_after r) !! "authUsername" = None).
Proof.
  destruct (proj1 (unauthorized_removes_token_and_username env
                     (answers 401 expired_body) (Get "/summary") ()
                     (browser [("authToken", "abc123"); ("authUsername", "alice");
                               ("authRole", "admin")]))
              _ eq_refl eq_refl)
    as ((e & Hout & Hmessage) & Hslots).
  split; [|exact Hslots].
  exists e. split; [exact Hout|]. exact (Hmessage _ eq_refl).
Defined.

(** The stored token is the empty string: the request goes out without an
    [Authorization] header, not with the header [Bearer ] and nothing
    after it. *)
Lemma empty_token_sends_no_header :
  let w := browser [("authToken", "")] in
  let r := perform (answers 200 "null") (Get "/health") () w in
  localStorage w !! "authToken" = Some ""
  ∧ (∃ req, sent (world_after r) = req :: sent w
            ∧ header "Authorization" req = None)
  ∧ ¬ (∃ req, sent (world_after r) = req :: sent w
              ∧ header "Authorization" req = Some ("Bearer " +:+ "")).
Proof.
  cbv zeta. split; [reflexivity|]. split.
  - eexists. split; reflexivity.
  - intros (req & Hsent & Hheader).
    injection Hsent as <-. vm_compute in Hheader. discriminate.
Qed.

Lemma bearer_header_witness :
  let r := perform (answers 200 "null") (Get "/health") () alice in
  let r' := perform (answers 200 "null") (Get "/health") () (browser []) in
  (∃ req, sent (world_after r) = req :: sent alice
          ∧ header "Authorization" req = Some "Bearer abc123")
  ∧ (∃ req, sent (world_after r') = [req]
            ∧ header "Authorization" req = None).
Proof.
  split.
  - destruct (bearer_header env (answers 200 "null") (Get "/health") () alice)
      as (req & Hsent & Htoken & _).
    exists req. split; [exact Hsent|].
    apply (Htoken "abc123"); [reflexivity | discriminate].
  - destruct (bearer_header env (answers 200 "null") (Get "/health") ()
                (browser [])) as (req & Hsent & _ & Hnone).
    exists req. split; [exact Hsent|].
    apply Hnone. left. reflexivity.
Defined.

(** The body [{"detail":""}] on a 400: its [detail] is a string, and the
    message of the failure is the synthesized one, not that string. *)
Lemma empty_detail_is_not_the_message :
  let r := perform (answers 400 empty_detail_body) (Get "/users") () alice in
  parse_body (number := Z) empty_detail_body = JObj [("detail", JStr "")]
  ∧ outcome r
    = Throw (ApiError "Request failed with status 400" 400
               (JObj [("detail", JStr "")]))
  ∧ ¬ (∃ e, outcome r = Throw e ∧ exn_message e = "").
Proof.
  cbv zeta. split; [reflexivity|]. split; [reflexivity|].
  intros (e & Hout & Hmessage). vm_compute in Hout.
  injection Hout as <-. discriminate.
Qed.

Lemma failure_message_of_body_witness :
  let r := perform (answers 403 expired_body) (Get "/users") () alice in
  let r' := perform (answers 502 "") (Get "/users") () alice in
  (∃ e, outcome r = Throw e ∧ exn_message e = "expired")
  ∧ (∃ e, outcome r' = Throw e
          ∧ exn_message e = "Request failed with status 502").
Proof.
  split.
  - destruct (failure_message_of_body env (answers 403 expired_body)
                (Get "/users") () alice _ eq_refl eq_refl)
      as (e & Hout & Hdetail & _).
    exists e. split; [exact Hout|].
    apply (Hdetail [("detail", JStr "expired")]);
      [reflexivity | reflexivity | discriminate].
  - destruct (failure_message_of_body env (answers 502 "")
                (Get "/users") () alice _ eq_refl eq_refl)
      as (e & Hout & _ & Hdefault).
    exists e. split; [exact Hout|].
    apply Hdefault; reflexivity.
Defined.

(** [POST /users] with the body [{"username":"bob","email":null}] is
    answered 201 with [{"id":7,"username":"bob","email":null}]: the call
    returns that object; and a 204 with an empty body returns [null]. *)
Lemma success_returns_parsed_body_witness :
  let created :=
    JObj [("id", JNum 7%Z); ("username", JStr "bob"); ("email", JNull)] in
  let r := perform (answers 201 created_body)
             (Post "/users" (JObj [("username", JStr "bob"); ("email", JNull)]))
             () alice in
  let r' := perform (answers 204 "") (Get "/users") () alice in
  JSON_stringify created = created_body
  ∧ outcome r = Ret created
  ∧ outcome r' = Ret JNull.
Proof.
  split; [reflexivity|]. split.
  - apply (proj1 (proj2 (success_returns_parsed_body env (answers 201 created_body)
                    (Post "/users" (JObj [("username", JStr "bob"); ("email", JNull)]))
                    () alice _ eq_refl eq_refl)));
      [reflexivity | reflexivity | discriminate].
  - apply (proj2 (proj2 (success_returns_parsed_body env (answers 204 "")
                    (Get "/users") () alice _ eq_refl eq_refl))).
    reflexivity.
Defined.



Lemma gate_agrees_with_client_witness :
  let w := browser [("authToken", "")] in
  let r := perform (answers 200 "null") (Get "/health") () w in
  ∃ a req,
    useAuth () w = (Ret a, (), w)
    ∧ sent (world_after r) = req :: sent w
    ∧ isAuthenticated a = false
    ∧ header "Authorization" req = None.
Proof.
  destruct (gate_agrees_with_client env (answers 200 "null") (Get "/health") ()
              (browser [("authToken", "")]))
    as (a & req & Hauth & Hsent & _ & Hempty).
  exists a, req. split; [exact Hauth|]. split; [exact Hsent|].
  apply Hempty. reflexivity.
Defined.

(** Alice submits the form of the users page for [bob]: the creation
    request and the reload of the list both go out, and neither carries her
    token. *)
Example UsersPage_handleCreate_requests :
  let form :=
    {| UsersPage.users := JArr []; UsersPage.loading := false;
       UsersPage.error := None; UsersPage.username := "bob";
       UsersPage.email := ""; UsersPage.creating := false;
       UsersPage.createError := None |} in
  let r := UsersPage.handleCreate (number := Z) env (answers 201 "[]") form alice in
  map req_url (sent (world_after r))
    = ["http://localhost:8002/users"; "http://localhost:8002/users"]
  ∧ map (λ q, init_method (req_init q)) (sent (world_after r))
    = [None; Some "POST"]
  ∧ map (header "Authorization") (sent (world_after r)) = [None; None]
  ∧ UsersPage.username (view_after r) = ""
  ∧ UsersPage.createError (view_after r) = None.
Proof. repeat split; reflexivity. Qed.

End Runs.

(** * Further properties of the code *)

(** ** The client *)

Section ClientFacts.
Context {number : Type} `{!Runtime number}.
Variable env : ImportMetaEnv.
Variable network : list Request → Exchange.
Context {V : Type}.

Local Abbreviation value := (value number).
Local Abbreviation call := (@call number).
Local Abbreviation M := (@M number V).
Local Abbreviation perform := (perform env network (V := V)).

Lemma content_type_issued (c : call) (ls : gmap string string) :
  header "Content-Type" (issued env (path_of c) (options_of c) ls)
  = Some "application/json".
Proof.
  assert (Hbase : base_headers (options_of c) !! "Content-Type"
                  = Some "application/json").
  { unfold base_headers. apply lookup_union_Some_raw. right. split.
    - destruct c; apply lookup_empty.
    - apply lookup_singleton_eq. }
  unfold header, issued, with_token; cbn.
  destruct (ls !! "authToken") as [t|]; [|done].
  destruct (String_ToBoolean t); [|done].
  by rewrite lookup_insert_ne.
Qed.

(** X1: a call of [apiGet] or [apiPost] hands exactly one request to
    [fetch], whatever the network answers: to the base URL followed by the
    path, with the method of the function and the JSON content type. *)
Theorem call_issues_one_request (c : call) (v : V) (w : World) :
  ∃ req,
    sent (world_after (perform c v w)) = req :: sent w
    ∧ req_url req = API_BASE_URL env +:+ path_of c
    ∧ init_method (req_init req)
      = Some (match c with Get _ => "GET" | Post _ _ => "POST" end)
    ∧ header "Content-Type" req = Some "application/json".
Proof.
  rewrite perform_request. eexists. split; [apply request_sent|].
  split; [done|]. split; [by destruct c|]. apply content_type_issued.
Qed.

(** X2: [apiPost] sends the JSON text of a truthy body, and sends no body
    at all when the body is falsy ([undefined], [null], [false], [0], the
    empty string); [apiGet] never sends a body. *)
Theorem post_body (path : string) (body : value) (v : V) (w : World) :
  (∃ req,
     sent (world_after (perform (Post path body) v w)) = req :: sent w
     ∧ init_body (req_init req)
       = if ToBoolean body then Some (JSON_stringify body) else None)
  ∧ (∃ req,
       sent (world_after (perform (Get path) v w)) = req :: sent w
       ∧ init_body (req_init req) = None).
Proof.
  split; rewrite perform_request; eexists; (split; [apply request_sent|done]).
Qed.

(** X3: a call writes the storage only to remove the token and the user
    name: every other key keeps its value whatever the network answers, and
    the whole storage is as before unless the answer is a response with
    status 401. *)
Theorem call_storage_frame (c : call) (v : V) (w : World) :
  let r := perform c v w in
  (∀ k, k ≠ "authToken" → k ≠ "authUsername" →
        localStorage (world_after r) !! k = localStorage w !! k)
  ∧ ((∀ resp, last_exchange network (world_after r) = Responded resp →
              resp_status resp ≠ 401%N) →
     localStorage (world_after r) = localStorage w).
Proof.
  intros r. subst r. rewrite perform_request.
  destruct (last_exchange network
              (world_after (request env network (path_of c) (options_of c) v w)))
    as [resp|reason] eqn:Hnet.
  - destruct (resp_ok resp) eqn:Hok.
    + destruct (request_ok _ _ _ _ _ _ _ Hnet Hok) as [_ ->]. by split.
    + destruct (request_failed _ _ _ _ _ _ _ Hnet Hok) as [_ ->]. split.
      * intros k Htoken Huser. case_decide; [|done].
        by rewrite !lookup_delete_ne.
      * intros Hstatus. by rewrite decide_False by by apply Hstatus.
  - destruct (request_unreachable _ _ _ _ _ _ _ Hnet) as [_ ->]. by split.
Qed.

(** X4: when the body of a response is a non-empty text that [JSON.parse]
    rejects, the text itself stands for the parsed body: a 2xx response
    returns it as a string, and any other response throws an [ApiError]
    whose data is that string and whose message is the synthesized one. *)
Theorem unparseable_body_is_raw_text (c : call) (v : V) (w : World) (resp : Response) :
  let r := perform c v w in
  last_exchange network (world_after r) = Responded resp →
  JSON_parse (resp_text resp) = None →
  resp_text resp ≠ "" →
  (resp_ok resp = true → outcome r = Ret (JStr (resp_text resp)))
  ∧ (resp_ok resp = false →
     outcome r
     = Throw (ApiError
                ("Request failed with status " +:+ pretty (resp_status resp))
                (resp_status resp)
                (JStr (resp_text resp)))).
Proof.
  intros r Hnet Hparse Htext%String_ToBoolean_true. subst r.
  rewrite perform_request in *.
  assert (Hbody : parse_body (resp_text resp) = JStr (resp_text resp)).
  { unfold parse_body. by rewrite Htext, Hparse. }
  split; intros Hok.
  - destruct (request_ok _ _ _ _ _ _ _ Hnet Hok) as [-> _]. by rewrite Hbody.
  - destruct (request_failed _ _ _ _ _ _ _ Hnet Hok) as [-> _].
    rewrite Hbody.
    by rewrite (new_ApiError_Some _ _ _ _
                  (failure_message_default (JStr (resp_text resp)) _
                     eq_refl eq_refl)).
Qed.

(** X5: for a response that is not 2xx whose parsed body is an object
    with a falsy or missing [detail] and a non-empty string [message], the
    message of the failure is that [message]. *)
Theorem message_field_is_the_fallback (c : call) (v : V) (w : World)
    (resp : Response) (props : list (string * value)) (m : string) :
  let r := perform c v w in
  last_exchange network (world_after r) = Responded resp →
  resp_ok resp = false →
  parse_body (resp_text resp) = JObj props →
  ToBoolean (obj_get "detail" props) = false →
  obj_get "message" props = JStr m →
  m ≠ "" →
  ∃ e, outcome r = Throw e ∧ exn_message e = m.
Proof.
  intros r Hnet Hok Hbody Hdetail Hmessage Hm%String_ToBoolean_true. subst r.
  rewrite perform_request in *.
  destruct (request_failed _ _ _ _ _ _ _ Hnet Hok) as [-> _].
  eexists. split; [done|]. rewrite Hbody.
  unfold new_ApiError, failure_message; cbn. rewrite Hdetail, Hmessage; cbn.
  by rewrite Hm.
Qed.

(** [ToString] of an array all of whose items are objects without an own
    [toString]. *)
Lemma ToString_objects (items : list value) :
  Forall (λ x, ∃ fields, x = JObj fields ∧ has_own "toString" fields = false)
    items →
  ToString (JArr items)
  = Some (join "," (replicate (length items) "[object Object]")).
Proof.
  intros Hitems. cbn [ToString].
  match goal with |- join "," <$> ?elems = _ =>
    assert (Helems : elems = Some (replicate (length items) "[object Object]"))
  end.
  { induction Hitems as [|x items (fields & -> & Hown) _ IH]; [done|].
    cbn [ToString]. rewrite Hown, IH. done. }
  by rewrite Helems.
Qed.

(** X6: for a response that is not 2xx whose parsed body is an object
    with a [detail] that is itself an object, or an array of objects, the
    [detail] is picked as message and converted by the [Error] constructor:
    an object without an own [toString] gives the message
    [[object Object]], an array of such objects gives one [[object Object]]
    per item, separated by commas (the empty message for the empty array),
    and an object with an own [toString] cannot be converted, so that what
    is thrown is a [TypeError], without status and without data. *)
Theorem structured_detail_message (c : call) (v : V) (w : World)
    (resp : Response) (props : list (string * value)) :
  let r := perform c v w in
  last_exchange network (world_after r) = Responded resp →
  resp_ok resp = false →
  parse_body (resp_text resp) = JObj props →
  ∃ e, outcome r = Throw e
       ∧ (∀ fields, obj_get "detail" props = JObj fields →
                    has_own "toString" fields = false →
                    e = ApiError "[object Object]" (resp_status resp) (JObj props))
       ∧ (∀ items, obj_get "detail" props = JArr items →
                   Forall (λ x, ∃ fields, x = JObj fields
                                          ∧ has_own "toString" fields = false)
                     items →
                   e = ApiError
                         (join "," (replicate (length items) "[object Object]"))
                         (resp_status resp) (JObj props))
       ∧ (∀ fields, obj_get "detail" props = JObj fields →
                    has_own "toString" fields = true →
                    e = TypeError ToPrimitive_error
                    ∧ exn_status e = None
                    ∧ exn_data e = None).
Proof.
  intros r Hnet Hok Hbody. subst r. rewrite perform_request in *.
  destruct (request_failed _ _ _ _ _ _ _ Hnet Hok) as [-> _].
  eexists. split; [done|]. rewrite Hbody.
  unfold new_ApiError, failure_message. cbn [ToBoolean prop].
  split; [|split].
  - intros fields -> Hown. cbn. by rewrite Hown.
  - intros items -> Hitems. cbn [ToBoolean].
    by rewrite (ToString_objects items Hitems).
  - intros fields -> Hown. cbn. by rewrite Hown.
Qed.

End ClientFacts.

(** ** The gate, the header and the session *)

Section GateFacts.
Context {number : Type} `{!Runtime number}.
Variable env : ImportMetaEnv.
Variable network : list Request → Exchange.
Context {V : Type}.

Local Abbreviation value := (value number).
Local Abbreviation call := (@call number).
Local Abbreviation M := (@M number V).
Local Abbreviation perform := (perform env network (V := V)).

(** [RequireAuth] reads the token and changes nothing. *)
Lemma RequireAuth_run (v : V) (w : World) :
  (RequireAuth : M Guarded) v w
  = (Ret (if nullable_ToBoolean (localStorage w !! "authToken")
          then Children else to_login),
     v, w).
Proof.
  unfold RequireAuth. unfold_monad. rewrite useAuth_run. cbn.
  by destruct (nullable_ToBoolean _).
Qed.

(** A call from a storage without token carries no credential. *)
Lemma anonymous_call (c : call) (v : V) (w : World) :
  localStorage w !! "authToken" = None →
  ∃ req, sent (world_after (perform c v w)) = req :: sent w
         ∧ header "Authorization" req = None.
Proof.
  intros Htoken. rewrite perform_request. eexists.
  split; [apply request_sent|]. by rewrite header_issued, Htoken.
Qed.

(** X7: once a call has been answered 401, the gate redirects to the login
    page and the next call of the client goes out without an
    [Authorization] header. *)
Theorem after_unauthorized_next_call_is_anonymous (c1 c2 : call) (v : V)
    (w : World) (resp : Response) :
  let r1 := perform c1 v w in
  last_exchange network (world_after r1) = Responded resp →
  resp_status resp = 401%N →
  outcome ((RequireAuth : M Guarded) (view_after r1) (world_after r1))
    = Ret to_login
  ∧ ∃ req,
      sent (world_after (perform c2 (view_after r1) (world_after r1)))
        = req :: sent (world_after r1)
      ∧ header "Authorization" req = None.
Proof.
  intros r1 Hnet Hstatus.
  assert (Htoken : localStorage (world_after r1) !! "authToken" = None).
  { subst r1. rewrite perform_request in *.
    destruct (request_failed _ _ _ _ _ _ _ Hnet) as [_ ->].
    { unfold resp_ok. by rewrite Hstatus. }
    rewrite decide_True by done.
    rewrite lookup_delete_ne by done. apply lookup_delete_eq. }
  split.
  - rewrite RequireAuth_run. unfold outcome; cbn. by rewrite Htoken.
  - by apply anonymous_call.
Qed.

(** X8: [logout] touches the three keys of the session and nothing else;
    after it the gate redirects to the login page and the next call of the
    client goes out without an [Authorization] header. *)
Theorem logout_then_anonymous (c : call) (v : V) (w : World) :
  let w1 := world_after ((logout : M unit) v w) in
  (∀ k, k ≠ "authToken" → k ≠ "authUsername" → k ≠ "authRole" →
        localStorage w1 !! k = localStorage w !! k)
  ∧ sent w1 = sent w
  ∧ outcome ((RequireAuth : M Guarded) v w1) = Ret to_login
  ∧ ∃ req, sent (world_after (perform c v w1)) = req :: sent w1
           ∧ header "Authorization" req = None.
Proof.
  intros w1.
  assert (Hls : localStorage w1
                = delete "authRole"
                    (delete "authUsername" (delete "authToken" (localStorage w)))).
  { subst w1. by rewrite logout_run. }
  assert (Htoken : localStorage w1 !! "authToken" = None).
  { rewrite Hls, !lookup_delete. by repeat case_decide. }
  split; [|split; [|split]].
  - intros k Ht Hu Hr. by rewrite Hls, !lookup_delete_ne.
  - subst w1. by rewrite logout_run.
  - rewrite RequireAuth_run. unfold outcome; cbn. by rewrite Htoken.
  - by apply anonymous_call.
Qed.

(** X9: the header and the gate agree: the header shows the user and the
    logout button exactly when [RequireAuth] renders its children, and the
    login button exactly when [RequireAuth] redirects; the label names the
    stored user when there is one. *)
Theorem header_agrees_with_gate (navs : list Navigation) (v : V) (w : World) :
  let shown := outcome (Header.render (number := number) navs w) in
  let guarded := outcome ((RequireAuth : M Guarded) v w) in
  (guarded = Ret Children
   ∧ shown = Ret (Header.LoggedIn
                    (match localStorage w !! "authUsername" with
                     | Some (String c u) => "Пользователь: " +:+ String c u
                     | _ => "Авторизован"
                     end)))
  ∨ (guarded = Ret to_login ∧ shown = Ret Header.LoggedOut).
Proof.
  intros shown guarded. subst shown guarded.
  rewrite RequireAuth_run. unfold Header.render, getAuthToken. unfold_monad. cbn.
  destruct (nullable_ToBoolean (localStorage w !! "authToken")); [left|right].
  - split; [done|]. by destruct (localStorage w !! "authUsername") as [[|c u]|].
  - done.
Qed.

(** X10: the logout button of the header removes the token and the user
    name and leaves every other key, the role among them; it navigates to
    the login page, issues no request, and afterwards the header shows the
    login button and the gate redirects. *)
Theorem header_logout (navs : list Navigation) (v : V) (w : World) :
  let r := Header.handleLogout (number := number) navs w in
  outcome r = Ret ()
  ∧ view_after r
    = {| nav_to := "/login"; nav_replace := false; nav_from := None |} :: navs
  ∧ localStorage (world_after r) !! "authToken" = None
  ∧ localStorage (world_after r) !! "authUsername" = None
  ∧ (∀ k, k ≠ "authToken" → k ≠ "authUsername" →
          localStorage (world_after r) !! k = localStorage w !! k)
  ∧ sent (world_after r) = sent w
  ∧ outcome (Header.render (number := number) (view_after r) (world_after r))
    = Ret Header.LoggedOut
  ∧ outcome ((RequireAuth : M Guarded) v (world_after r)) = Ret to_login.
Proof.
  intros r. subst r. unfold Header.handleLogout, Header.navigate.
  rewrite RequireAuth_run.
  unfold Header.render, getAuthToken. unfold_monad.
  cbn -[delete].
  assert (Htoken : delete "authUsername" (delete "authToken" (localStorage w))
                   !! "authToken" = None).
  { rewrite lookup_delete_ne by done. apply lookup_delete_eq. }
  rewrite Htoken. cbn -[delete].
  repeat split; try done.
  - apply lookup_delete_eq.
  - intros k Ht Hu. by rewrite !lookup_delete_ne.
Qed.

End GateFacts.

(** ** The configuration *)

Lemma or_default_nonempty (o : option string) (d : string) :
  d ≠ "" → or_default o d ≠ "".
Proof.
  intros Hd. unfold or_default. destruct o as [[|c s]|]; cbn; done.
Qed.

(** X11: whatever the environment sets, none of the five base URLs is the
    empty string: for each of them, an unset or empty variable gives the
    default of that URL, and a non-empty variable gives its value. *)
Theorem base_urls_never_empty (env : ImportMetaEnv) :
  let resolves (variable : option string) (fallback url : string) :=
    url ≠ ""
    ∧ (variable = None ∨ variable = Some "" → url = fallback)
    ∧ (∀ set, variable = Some set → set ≠ "" → url = set) in
  resolves (VITE_API_URL env) "http://localhost:8000" (API_BASE_URL env)
  ∧ resolves (VITE_AUTH_API_URL env) "http://localhost:8001" (AUTH_BASE_URL env)
  ∧ resolves (VITE_USERS_API_URL env) "http://localhost:8002" (USERS_BASE_URL env)
  ∧ resolves (VITE_CATALOG_API_URL env) "http://localhost:8003"
      (CATALOG_BASE_URL env)
  ∧ resolves (VITE_ORDERS_API_URL env) "http://localhost:8004"
      (ORDERS_BASE_URL env).
Proof.
  assert (Hresolves : ∀ variable fallback, fallback ≠ "" →
            or_default variable fallback ≠ ""
            ∧ (variable = None ∨ variable = Some "" →
               or_default variable fallback = fallback)
            ∧ (∀ set, variable = Some set → set ≠ "" →
                      or_default variable fallback = set)).
  { intros variable fallback Hfallback. split; [|split].
    - by apply or_default_nonempty.
    - by intros [-> | ->].
    - intros set -> Hset. by destruct set. }
  cbv zeta. repeat apply conj; by apply Hresolves.
Qed.

(** ** The pages: what they never do *)

Section InvariantFacts.
Context {number : Type} `{!Runtime number} {V : Type}.
Variable network : list Request → Exchange.

Local Abbreviation M := (@M number V).

Lemma keeps_storage_bind {A B} (m : M A) (k : A → M B) :
  keeps_storage m → (∀ a, keeps_storage (k a)) → keeps_storage (m ≫= k).
Proof.
  intros Hm Hk v w. specialize (Hm v w). unfold_monad.
  destruct (m v w) as [[[a|e] v1] w1]; cbn in *; [|done].
  specialize (Hk a v1 w1). unfold_monad. by rewrite Hk.
Qed.

Lemma keeps_storage_try_catch {A} (body : M A) (handler : exn → M A) :
  keeps_storage body → (∀ e, keeps_storage (handler e)) →
  keeps_storage (try_catch body handler).
Proof.
  intros Hm Hk v w. specialize (Hm v w). unfold_monad.
  destruct (body v w) as [[[a|e] v1] w1]; cbn in *; [done|].
  specialize (Hk e v1 w1). unfold_monad. by rewrite Hk.
Qed.

Lemma keeps_storage_finally {A} (body : M A) (cleanup : M unit) :
  keeps_storage body → keeps_storage cleanup →
  keeps_storage (finally body cleanup).
Proof.
  intros Hm Hk v w. specialize (Hm v w). unfold_monad.
  destruct (body v w) as [[r v1] w1]; cbn in *.
  specialize (Hk v1 w1). unfold_monad.
  destruct (cleanup v1 w1) as [[[[]|e] v2] w2]; cbn in *; by rewrite Hk.
Qed.

Lemma keeps_storage_if {A} (b : bool) (m1 m2 : M A) :
  keeps_storage m1 → keeps_storage m2 → keeps_storage (if b then m1 else m2).
Proof. by destruct b. Qed.

Lemma keeps_storage_fetch (url : string) (init : RequestInit) :
  keeps_storage (fetch network url init : M Response).
Proof. intros v w. unfold_monad. cbn. by destruct (network _). Qed.

Lemma keeps_storage_res_json (res : Response) : keeps_storage (res_json res : M _).
Proof. intros v w. unfold res_json. by destruct (JSON_parse _). Qed.

Lemma keeps_storage_check_ok (res : Response) : keeps_storage (check_ok res : M _).
Proof. intros v w. unfold check_ok. by destruct (negb _). Qed.

Lemma never_throws_bind {A B} (m : M A) (k : A → M B) :
  never_throws m → (∀ a, never_throws (k a)) → never_throws (m ≫= k).
Proof.
  intros Hm Hk v w. destruct (Hm v w) as [a Ha]. unfold_monad.
  destruct (m v w) as [[[a'|e] v1] w1]; cbn in *; [|done].
  apply (Hk a' v1 w1).
Qed.

(** A [catch] whose handler returns makes the whole [try] return. *)
Lemma never_throws_try_catch {A} (body : M A) (handler : exn → M A) :
  (∀ e, never_throws (handler e)) → never_throws (try_catch body handler).
Proof.
  intros Hk v w. unfold_monad.
  destruct (body v w) as [[[a|e] v1] w1]; cbn; [by exists a|].
  apply (Hk e v1 w1).
Qed.

Lemma never_throws_finally {A} (body : M A) (cleanup : M unit) :
  never_throws body → never_throws cleanup → never_throws (finally body cleanup).
Proof.
  intros Hm Hk v w. destruct (Hm v w) as [a Ha]. unfold_monad.
  destruct (body v w) as [[r v1] w1]; cbn in *.
  destruct (Hk v1 w1) as [[] Hu]. unfold_monad.
  destruct (cleanup v1 w1) as [[[[]|e] v2] w2]; cbn in *; [by exists a|done].
Qed.

Lemma never_throws_if {A} (b : bool) (m1 m2 : M A) :
  never_throws m1 → never_throws m2 → never_throws (if b then m1 else m2).
Proof. by destruct b. Qed.

(** After [try { ... } finally { setX(...) }] the view is the one the
    setter leaves. *)
Lemma finally_set_view {A} (body : M A) (f : V → V) (v : V) (w : World) :
  view_after (finally body (set_view f) v w) = f (view_after (body v w)).
Proof. unfold_monad. by destruct (body v w) as [[r v1] w1]. Qed.

End InvariantFacts.

Ltac keeps_storage_step :=
  lazymatch goal with
  | |- keeps_storage (mbind _ _) => apply keeps_storage_bind; [|intros]
  | |- keeps_storage (try_catch _ _) => apply keeps_storage_try_catch; [|intros]
  | |- keeps_storage (finally _ _) => apply keeps_storage_finally
  | |- keeps_storage (if _ then _ else _) => apply keeps_storage_if
  | |- keeps_storage (let _ := _ in _) => cbv zeta
  | |- keeps_storage (fetch _ _ _) => apply keeps_storage_fetch
  | |- keeps_storage (res_json _) => apply keeps_storage_res_json
  | |- keeps_storage (check_ok _) => apply keeps_storage_check_ok
  end.

Ltac keeps_storage_auto :=
  repeat first [keeps_storage_step | assumption | (intros ? ?; reflexivity)].

Ltac never_throws_step :=
  lazymatch goal with
  | |- never_throws (mbind _ _) => apply never_throws_bind; [|intros]
  | |- never_throws (try_catch _ _) => apply never_throws_try_catch; intros
  | |- never_throws (finally _ _) => apply never_throws_finally
  | |- never_throws (if _ then _ else _) => apply never_throws_if
  | |- never_throws (let _ := _ in _) => cbv zeta
  end.

Ltac never_throws_auto :=
  repeat first [never_throws_step | assumption
               | (intros ? ?; eexists; reflexivity)].

Section PageInvariants.
Context {number : Type} `{!Runtime number, !Numeric number}.
Variable env : ImportMetaEnv.
Variable network : list Request → Exchange.

Lemma CatalogPage_loadProducts_keeps_storage :
  keeps_storage (CatalogPage.loadProducts env network).
Proof. unfold CatalogPage.loadProducts. keeps_storage_auto. Qed.

Lemma UsersPage_loadUsers_keeps_storage :
  keeps_storage (UsersPage.loadUsers env network).
Proof. unfold UsersPage.loadUsers. keeps_storage_auto. Qed.

Lemma OrdersPage_loadOrders_keeps_storage :
  keeps_storage (OrdersPage.loadOrders env network).
Proof. unfold OrdersPage.loadOrders. keeps_storage_auto. Qed.

Lemma OrdersPage_loadUsers_keeps_storage :
  keeps_storage (OrdersPage.loadUsers env network).
Proof. unfold OrdersPage.loadUsers. keeps_storage_auto. Qed.

Lemma OrdersPage_loadProducts_keeps_storage :
  keeps_storage (OrdersPage.loadProducts env network).
Proof. unfold OrdersPage.loadProducts. keeps_storage_auto. Qed.

(** X12: the catalog, users and orders pages never write the storage: on
    mount and on the submission of their forms, whatever the network
    answers, the storage afterwards is the storage before. *)
Theorem pages_keep_storage :
  keeps_storage (CatalogPage.mount env network)
  ∧ keeps_storage (CatalogPage.handleCreate env network)
  ∧ keeps_storage (UsersPage.mount env network)
  ∧ keeps_storage (UsersPage.handleCreate env network)
  ∧ keeps_storage (OrdersPage.mount env network)
  ∧ keeps_storage (OrdersPage.handleCreate env network).
Proof.
  pose proof CatalogPage_loadProducts_keeps_storage.
  pose proof UsersPage_loadUsers_keeps_storage.
  pose proof OrdersPage_loadOrders_keeps_storage.
  pose proof OrdersPage_loadUsers_keeps_storage.
  pose proof OrdersPage_loadProducts_keeps_storage.
  repeat split.
  - done.
  - unfold CatalogPage.handleCreate. keeps_storage_auto.
  - done.
  - unfold UsersPage.handleCreate. keeps_storage_auto.
  - unfold OrdersPage.mount. keeps_storage_auto.
  - unfold OrdersPage.handleCreate. keeps_storage_auto.
Qed.

Lemma CatalogPage_loadProducts_never_throws :
  never_throws (CatalogPage.loadProducts env network).
Proof. unfold CatalogPage.loadProducts. never_throws_auto. Qed.

Lemma UsersPage_loadUsers_never_throws :
  never_throws (UsersPage.loadUsers env network).
Proof. unfold UsersPage.loadUsers. never_throws_auto. Qed.

Lemma OrdersPage_loadOrders_never_throws :
  never_throws (OrdersPage.loadOrders env network).
Proof. unfold OrdersPage.loadOrders. never_throws_auto. Qed.

Lemma OrdersPage_loadUsers_never_throws :
  never_throws (OrdersPage.loadUsers env network).
Proof. unfold OrdersPage.loadUsers. never_throws_auto. Qed.

Lemma OrdersPage_loadProducts_never_throws :
  never_throws (OrdersPage.loadProducts env network).
Proof. unfold OrdersPage.loadProducts. never_throws_auto. Qed.

(** X13: the loaders and the form handlers of the three pages catch every
    failure: whatever the network answers (no response, any status, a body
    that is not JSON), they return and do not throw. *)
Theorem pages_never_throw :
  never_throws (CatalogPage.mount env network)
  ∧ never_throws (CatalogPage.handleCreate env network)
  ∧ never_throws (UsersPage.mount env network)
  ∧ never_throws (UsersPage.handleCreate env network)
  ∧ never_throws (OrdersPage.mount env network)
  ∧ never_throws (OrdersPage.handleCreate env network).
Proof.
  pose proof CatalogPage_loadProducts_never_throws.
  pose proof UsersPage_loadUsers_never_throws.
  pose proof OrdersPage_loadOrders_never_throws.
  pose proof OrdersPage_loadUsers_never_throws.
  pose proof OrdersPage_loadProducts_never_throws.
  repeat split.
  - done.
  - unfold CatalogPage.handleCreate. never_throws_auto.
  - done.
  - unfold UsersPage.handleCreate. never_throws_auto.
  - unfold OrdersPage.mount. never_throws_auto.
  - unfold OrdersPage.handleCreate. never_throws_auto.
Qed.

(** X14: the three list loaders that show a spinner end with it hidden:
    whatever the network answers, the loading flag is false when
    [loadProducts] of the catalog page, [loadUsers] of the users page and
    [loadOrders] of the orders page are done. *)
Theorem loaders_end_not_loading :
  (∀ v w, CatalogPage.loading
            (view_after (CatalogPage.loadProducts env network v w)) = false)
  ∧ (∀ v w, UsersPage.loading
              (view_after (UsersPage.loadUsers env network v w)) = false)
  ∧ (∀ v w, OrdersPage.ordersLoading
              (view_after (OrdersPage.loadOrders env network v w)) = false).
Proof.
  repeat split; intros v w.
  - unfold CatalogPage.loadProducts, CatalogPage.setLoading at 2.
    by rewrite finally_set_view.
  - unfold UsersPage.loadUsers, UsersPage.setLoading at 2.
    by rewrite finally_set_view.
  - unfold OrdersPage.loadOrders, OrdersPage.setOrdersLoading at 2.
    by rewrite finally_set_view.
Qed.

End PageInvariants.

(** ** The forms of the pages *)

Section CatalogFacts.
Context {number : Type} `{!Runtime number, !Numeric number}.
Variable env : ImportMetaEnv.
Variable network : list Request → Exchange.

Local Abbreviation value := (value number).

(** The first request after [h] is answered as [answers_nth] says. *)
Lemma answers_first (h : list Request) (ex : Exchange) (req : Request) :
  answers_nth network h 0 ex → network (req :: h) = ex.
Proof. intros Hnet. apply (Hnet [req]). done. Qed.

Lemma answers_second (h : list Request) (ex : Exchange) (req1 req2 : Request) :
  answers_nth network h 1 ex → network (req2 :: req1 :: h) = ex.
Proof. intros Hnet. apply (Hnet [req2; req1]). done. Qed.

(** X15: the form of the catalog page sends nothing when it is invalid:
    with an empty name, or with a price that [parseFloat] reads as [NaN] or
    as a number not above 0, [handleCreate] returns with the world as it
    was (no request, no toast, the storage untouched) and only the
    creation error of the view set, to the message of the failed check. *)
Theorem CatalogPage_rejects_invalid_form (v : CatalogPage.View) (w : World) :
  let r := CatalogPage.handleCreate env network v w in
  let rejected (message : string) :=
    (Ret (),
     {| CatalogPage.products := CatalogPage.products v;
        CatalogPage.loading := CatalogPage.loading v;
        CatalogPage.error := CatalogPage.error v;
        CatalogPage.name := CatalogPage.name v;
        CatalogPage.price := CatalogPage.price v;
        CatalogPage.inStock := CatalogPage.inStock v;
        CatalogPage.creating := CatalogPage.creating v;
        CatalogPage.createError := Some message |},
     w) in
  (CatalogPage.name v = "" → r = rejected "Введите имя товара")
  ∧ (CatalogPage.name v ≠ "" →
     isNaN (parseFloat (CatalogPage.price v))
     || Number_le0 (parseFloat (CatalogPage.price v)) = true →
     r = rejected "Введите корректную цену (> 0)").
Proof.
  intros r rejected. subst r rejected. unfold CatalogPage.handleCreate.
  unfold CatalogPage.setCreateError. unfold_monad. cbn. split.
  - intros ->. done.
  - intros Hname%String_ToBoolean_true Hprice. by rewrite Hname, Hprice.
Qed.

(** X16: when the form of the catalog page is valid and its request is
    not answered by a 2xx response, [handleCreate] sends that one request
    (a POST of the JSON of the form to the products of the catalog
    service), does not reload the list, keeps what was typed, and shows as
    creation error [HTTP] and the status for a response, or the reason of
    the network failure (a default text when the reason is empty). *)
Theorem CatalogPage_create_failed (v : CatalogPage.View) (w : World)
    (ex : Exchange) :
  CatalogPage.name v ≠ "" →
  isNaN (parseFloat (CatalogPage.price v))
  || Number_le0 (parseFloat (CatalogPage.price v)) = false →
  answers_nth network (sent w) 0 ex →
  (∀ resp, ex = Responded resp → resp_ok resp = false) →
  CatalogPage.handleCreate env network v w
  = (Ret (),
     {| CatalogPage.products := CatalogPage.products v;
        CatalogPage.loading := CatalogPage.loading v;
        CatalogPage.error := CatalogPage.error v;
        CatalogPage.name := CatalogPage.name v;
        CatalogPage.price := CatalogPage.price v;
        CatalogPage.inStock := CatalogPage.inStock v;
        CatalogPage.creating := false;
        CatalogPage.createError :=
          Some (match ex with
                | Responded resp => "HTTP " +:+ pretty (resp_status resp)
                | Unreachable reason =>
                    or_default (Some reason) "Ошибка при создании товара"
                end) |},
     push_sent
       {| req_url := CATALOG_BASE_URL env +:+ "/products";
          req_init :=
            post_json
              (JObj [("name", JStr (CatalogPage.name v));
                     ("price", JNum (parseFloat (CatalogPage.price v)));
                     ("in_stock", JBool (CatalogPage.inStock v))]) |}
       w).
Proof.
  intros Hname%String_ToBoolean_true Hprice Hnet Hfailed.
  unfold CatalogPage.handleCreate.
  unfold CatalogPage.setCreateError, CatalogPage.setCreating.
  unfold_monad. cbn. rewrite Hname, Hprice. cbn.
  rewrite (answers_first _ _ _ Hnet).
  destruct ex as [resp|reason]; cbn.
  - unfold check_ok. rewrite (Hfailed resp eq_refl). cbn. done.
  - done.
Qed.

(** X17: [loadProducts] of the catalog page sends one GET without options
    to the products of the catalog service and always returns with the
    spinner hidden.  A 2xx response whose body is JSON replaces the list
    and clears the error; otherwise the list is kept and the error is
    [HTTP] and the status, the message of the parse error, or the reason of
    the network failure (a default text when that message is empty). *)
Theorem CatalogPage_loadProducts_result (v : CatalogPage.View) (w : World)
    (ex : Exchange) :
  answers_nth network (sent w) 0 ex →
  let fallback := "Не удалось загрузить товары" in
  let loaded :=
    match ex with
    | Responded resp =>
        if resp_ok resp
        then match JSON_parse (resp_text resp) with
             | Some data => (data, None)
             | None =>
                 (CatalogPage.products v,
                  Some (or_default (Some (JSON_error (resp_text resp))) fallback))
             end
        else (CatalogPage.products v,
              Some ("HTTP " +:+ pretty (resp_status resp)))
    | Unreachable reason =>
        (CatalogPage.products v, Some (or_default (Some reason) fallback))
    end in
  CatalogPage.loadProducts env network v w
  = (Ret (),
     {| CatalogPage.products := loaded.1;
        CatalogPage.loading := false;
        CatalogPage.error := loaded.2;
        CatalogPage.name := CatalogPage.name v;
        CatalogPage.price := CatalogPage.price v;
        CatalogPage.inStock := CatalogPage.inStock v;
        CatalogPage.creating := CatalogPage.creating v;
        CatalogPage.createError := CatalogPage.createError v |},
     push_sent
       {| req_url := CATALOG_BASE_URL env +:+ "/products"; req_init := no_init |}
       w).
Proof.
  intros Hnet fallback loaded. subst fallback loaded.
  unfold CatalogPage.loadProducts.
  unfold CatalogPage.setLoading, CatalogPage.setError, CatalogPage.setProducts.
  unfold_monad. cbn. rewrite (answers_first _ _ _ Hnet).
  destruct ex as [resp|reason]; cbn; [|done].
  unfold check_ok, res_json.
  destruct (resp_ok resp); cbn; [|done].
  by destruct (JSON_parse (resp_text resp)).
Qed.

(** X18: when the form of the catalog page is valid and its request is
    answered by a 2xx response, [handleCreate] reloads the list with
    [loadProducts] and then, whatever the reload gave, empties the form,
    shows no creation error and returns. *)
Theorem CatalogPage_create_succeeded (v : CatalogPage.View) (w : World)
    (resp : Response) :
  CatalogPage.name v ≠ "" →
  isNaN (parseFloat (CatalogPage.price v))
  || Number_le0 (parseFloat (CatalogPage.price v)) = false →
  answers_nth network (sent w) 0 (Responded resp) →
  resp_ok resp = true →
  let posted :=
    push_sent
      {| req_url := CATALOG_BASE_URL env +:+ "/products";
         req_init :=
           post_json
             (JObj [("name", JStr (CatalogPage.name v));
                    ("price", JNum (parseFloat (CatalogPage.price v)));
                    ("in_stock", JBool (CatalogPage.inStock v))]) |}
      w in
  let submitting :=
    {| CatalogPage.products := CatalogPage.products v;
       CatalogPage.loading := CatalogPage.loading v;
       CatalogPage.error := CatalogPage.error v;
       CatalogPage.name := CatalogPage.name v;
       CatalogPage.price := CatalogPage.price v;
       CatalogPage.inStock := CatalogPage.inStock v;
       CatalogPage.creating := true;
       CatalogPage.createError := None |} in
  let reloaded := CatalogPage.loadProducts env network submitting posted in
  CatalogPage.handleCreate env network v w
  = (Ret (),
     {| CatalogPage.products := CatalogPage.products (view_after reloaded);
        CatalogPage.loading := false;
        CatalogPage.error := CatalogPage.error (view_after reloaded);
        CatalogPage.name := "";
        CatalogPage.price := "";
        CatalogPage.inStock := true;
        CatalogPage.creating := false;
        CatalogPage.createError := None |},
     world_after reloaded).
Proof.
  intros Hname%String_ToBoolean_true Hprice Hnet Hok posted submitting reloaded.
  subst posted submitting reloaded.
  unfold CatalogPage.handleCreate, CatalogPage.loadProducts.
  unfold CatalogPage.setCreateError, CatalogPage.setCreating,
    CatalogPage.setName, CatalogPage.setPrice, CatalogPage.setInStock,
    CatalogPage.setLoading, CatalogPage.setError, CatalogPage.setProducts.
  unfold_monad. cbn. rewrite Hname, Hprice. cbn.
  rewrite (answers_first _ _ _ Hnet). cbn.
  unfold check_ok at 1. rewrite Hok. cbn.
  destruct (network _) as [resp2|reason]; cbn; [|done].
  unfold check_ok, res_json.
  destruct (resp_ok resp2); cbn; [|done].
  by destruct (JSON_parse (resp_text resp2)).
Qed.

End CatalogFacts.

Section UsersFacts.
Context {number : Type} `{!Runtime number}.
Variable env : ImportMetaEnv.
Variable network : list Request → Exchange.

Local Abbreviation value := (value number).

(** X19: the form of the users page sends nothing when the user name is
    empty, and only sets its creation error; otherwise its first request,
    whatever the network answers, is a POST to the users service whose
    body names the user and gives [null] as the email when the email field
    is empty; the only request that can follow is the reload of the list. *)
Theorem UsersPage_handleCreate_request (v : UsersPage.View) (w : World) :
  let r := UsersPage.handleCreate env network v w in
  (UsersPage.username v = "" →
   r = (Ret (),
        {| UsersPage.users := UsersPage.users v;
           UsersPage.loading := UsersPage.loading v;
           UsersPage.error := UsersPage.error v;
           UsersPage.username := UsersPage.username v;
           UsersPage.email := UsersPage.email v;
           UsersPage.creating := UsersPage.creating v;
           UsersPage.createError := Some "Введите username" |},
        w))
  ∧ (UsersPage.username v ≠ "" →
     let post :=
       {| req_url := USERS_BASE_URL env +:+ "/users";
          req_init :=
            post_json
              (JObj [("username", JStr (UsersPage.username v));
                     ("email", match UsersPage.email v with
                               | "" => JNull
                               | address => JStr address
                               end)]) |} in
     let reload :=
       {| req_url := USERS_BASE_URL env +:+ "/users"; req_init := no_init |} in
     outcome r = Ret ()
     ∧ UsersPage.creating (view_after r) = false
     ∧ (sent (world_after r) = post :: sent w
        ∨ sent (world_after r) = reload :: post :: sent w)).
Proof.
  intros r. subst r. unfold UsersPage.handleCreate, UsersPage.loadUsers.
  unfold UsersPage.setCreateError, UsersPage.setCreating,
    UsersPage.setUsername, UsersPage.setEmail,
    UsersPage.setLoading, UsersPage.setError, UsersPage.setUsers.
  unfold_monad. cbn. split.
  - intros ->. done.
  - intros Hname%String_ToBoolean_true. rewrite Hname. cbn.
    replace (if String_ToBoolean (UsersPage.email v)
             then JStr (UsersPage.email v) else JNull)
      with (match UsersPage.email v with
            | "" => JNull (number := number)
            | address => JStr address
            end)
      by by destruct (UsersPage.email v).
    destruct (network _) as [resp|reason]; cbn;
      [|repeat split; first [done | by left]].
    unfold check_ok, res_json. destruct (resp_ok resp); cbn;
      [|repeat split; first [done | by left]].
    destruct (network _) as [resp2|reason2]; cbn;
      [|repeat split; first [done | by right]].
    destruct (resp_ok resp2); cbn;
      [|repeat split; first [done | by right]].
    destruct (JSON_parse (resp_text resp2)); cbn;
      repeat split; first [done | by right].
Qed.

End UsersFacts.

Section OrdersFacts.
Context {number : Type} `{!Runtime number, !Numeric number}.
Variable env : ImportMetaEnv.
Variable network : list Request → Exchange.

Local Abbreviation value := (value number).

(** X20: the form of the orders page sends nothing when it is invalid:
    without a user, without a product, or with a quantity that [parseInt]
    reads as [NaN] or as a number not above 0, [handleCreate] returns with
    the world as it was (no request, no toast, the storage untouched) and
    only the creation error of the view set, to the message of the first
    failed check: the three lists, their errors and spinner, the three
    fields and the creation spinner are as they were. *)
Theorem OrdersPage_rejects_invalid_form (v : OrdersPage.View) (w : World) :
  let r := OrdersPage.handleCreate env network v w in
  let rejected (message : string) :=
    (Ret (),
     {| OrdersPage.orders := OrdersPage.orders v;
        OrdersPage.ordersLoading := OrdersPage.ordersLoading v;
        OrdersPage.ordersError := OrdersPage.ordersError v;
        OrdersPage.users := OrdersPage.users v;
        OrdersPage.usersError := OrdersPage.usersError v;
        OrdersPage.products := OrdersPage.products v;
        OrdersPage.productsError := OrdersPage.productsError v;
        OrdersPage.userId := OrdersPage.userId v;
        OrdersPage.productId := OrdersPage.productId v;
        OrdersPage.quantity := OrdersPage.quantity v;
        OrdersPage.creating := OrdersPage.creating v;
        OrdersPage.createError := Some message |},
     w) in
  (OrdersPage.userId v = "" → r = rejected "Выберите пользователя")
  ∧ (OrdersPage.userId v ≠ "" → OrdersPage.productId v = "" →
     r = rejected "Выберите товар")
  ∧ (OrdersPage.userId v ≠ "" → OrdersPage.productId v ≠ "" →
     isNaN (parseInt10 (OrdersPage.quantity v))
     || Number_le0 (parseInt10 (OrdersPage.quantity v)) = true →
     r = rejected "Количество должно быть > 0").
Proof.
  intros r rejected. subst r rejected. unfold OrdersPage.handleCreate.
  unfold OrdersPage.setCreateError. unfold_monad. cbn. split; [|split].
  - intros ->. done.
  - intros Huser%String_ToBoolean_true ->. by rewrite Huser.
  - intros Huser%String_ToBoolean_true Hproduct%String_ToBoolean_true Hqty.
    by rewrite Huser, Hproduct, Hqty.
Qed.

(** X21: [loadOrders] sends one GET without options to the orders of the
    orders service and always returns with the spinner hidden.  A 2xx
    response whose body is JSON replaces the list, clears the error and
    shows no toast; otherwise the list is kept, the error is [HTTP] and the
    status, the message of the parse error, or the reason of the network
    failure (a default text when that message is empty), and one error
    toast repeats it. *)
Theorem OrdersPage_loadOrders_result (v : OrdersPage.View) (w : World)
    (ex : Exchange) :
  answers_nth network (sent w) 0 ex →
  let fallback := "Не удалось загрузить заказы" in
  let failure : option string :=
    match ex with
    | Responded resp =>
        if resp_ok resp
        then match JSON_parse (resp_text resp) with
             | Some _ => None
             | None => Some (or_default (Some (JSON_error (resp_text resp))) fallback)
             end
        else Some ("HTTP " +:+ pretty (resp_status resp))
    | Unreachable reason => Some (or_default (Some reason) fallback)
    end in
  let r := OrdersPage.loadOrders env network v w in
  outcome r = Ret ()
  ∧ sent (world_after r)
    = {| req_url := ORDERS_BASE_URL env +:+ "/orders"; req_init := no_init |}
      :: sent w
  ∧ OrdersPage.ordersLoading (view_after r) = false
  ∧ OrdersPage.ordersError (view_after r) = failure
  ∧ OrdersPage.orders (view_after r)
    = match ex with
      | Responded resp =>
          if resp_ok resp
          then default (OrdersPage.orders v) (JSON_parse (resp_text resp))
          else OrdersPage.orders v
      | Unreachable _ => OrdersPage.orders v
      end
  ∧ toasts (world_after r)
    = match failure with
      | Some msg => (ToastError, "Ошибка загрузки заказов: " +:+ msg) :: toasts w
      | None => toasts w
      end.
Proof.
  intros Hnet fallback failure r. subst fallback failure r.
  unfold OrdersPage.loadOrders.
  unfold OrdersPage.setOrdersLoading, OrdersPage.setOrdersError,
    OrdersPage.setOrders.
  unfold_monad. cbn. rewrite (answers_first _ _ _ _ Hnet).
  destruct ex as [resp|reason]; cbn; [|done].
  unfold check_ok, res_json.
  destruct (resp_ok resp); cbn; [|done].
  by destruct (JSON_parse (resp_text resp)).
Qed.

Lemma OrdersPage_loadOrders_sent (v : OrdersPage.View) (w : World) :
  sent (world_after (OrdersPage.loadOrders env network v w))
  = {| req_url := ORDERS_BASE_URL env +:+ "/orders"; req_init := no_init |}
    :: sent w.
Proof.
  unfold OrdersPage.loadOrders. unfold_monad. cbn.
  destruct (network _) as [resp|reason]; cbn; [|done].
  unfold check_ok, res_json. destruct (resp_ok resp); cbn; [|done].
  by destruct (JSON_parse (resp_text resp)).
Qed.

Lemma OrdersPage_loadUsers_sent (v : OrdersPage.View) (w : World) :
  sent (world_after (OrdersPage.loadUsers env network v w))
  = {| req_url := USERS_BASE_URL env +:+ "/users"; req_init := no_init |}
    :: sent w.
Proof.
  unfold OrdersPage.loadUsers. unfold_monad. cbn.
  destruct (network _) as [resp|reason]; cbn; [|done].
  unfold check_ok, res_json. destruct (resp_ok resp); cbn; [|done].
  by destruct (JSON_parse (resp_text resp)).
Qed.

Lemma OrdersPage_loadProducts_sent (v : OrdersPage.View) (w : World) :
  sent (world_after (OrdersPage.loadProducts env network v w))
  = {| req_url := CATALOG_BASE_URL env +:+ "/products"; req_init := no_init |}
    :: sent w.
Proof.
  unfold OrdersPage.loadProducts. unfold_monad. cbn.
  destruct (network _) as [resp|reason]; cbn; [|done].
  unfold check_ok, res_json. destruct (resp_ok resp); cbn; [|done].
  by destruct (JSON_parse (resp_text resp)).
Qed.

(** X22: on mount the orders page sends exactly three requests, whatever
    the network answers to each: a GET of the orders, then a GET of the
    users, then a GET of the products, each to its own service and without
    options; the failure of one does not stop the next. *)
Theorem OrdersPage_mount_requests (v : OrdersPage.View) (w : World) :
  sent (world_after (OrdersPage.mount env network v w))
  = {| req_url := CATALOG_BASE_URL env +:+ "/products"; req_init := no_init |}
    :: {| req_url := USERS_BASE_URL env +:+ "/users"; req_init := no_init |}
    :: {| req_url := ORDERS_BASE_URL env +:+ "/orders"; req_init := no_init |}
    :: sent w.
Proof.
  unfold OrdersPage.mount.
  pose proof (OrdersPage_loadOrders_never_throws env network v w) as [[] Hret1].
  pose proof (OrdersPage_loadOrders_sent v w) as Hsent1.
  unfold mbind, M_bind, bind, outcome, world_after in *.
  destruct (OrdersPage.loadOrders env network v w) as [[o1 v1] w1].
  cbn in Hret1, Hsent1. subst o1.
  pose proof (OrdersPage_loadUsers_never_throws env network v1 w1) as [[] Hret2].
  pose proof (OrdersPage_loadUsers_sent v1 w1) as Hsent2.
  unfold outcome, world_after in *.
  destruct (OrdersPage.loadUsers env network v1 w1) as [[o2 v2] w2].
  cbn in Hret2, Hsent2. subst o2.
  pose proof (OrdersPage_loadProducts_sent v2 w2) as Hsent3.
  unfold world_after in *.
  by rewrite Hsent3, Hsent2, Hsent1.
Qed.

End OrdersFacts.

(** ** The dashboard *)

(** Reduces a run and settles the status tests it can decide. *)
Ltac settle :=
  cbn -[delete];
  repeat (first [rewrite decide_True by done
                | rewrite decide_False by congruence];
          cbn -[delete]).

Section DashboardFacts.
Context {number : Type} `{!Runtime number}.
Variable env : ImportMetaEnv.
Variable network : list Request → Exchange.

Local Abbreviation value := (value number).
Local Abbreviation call := (@call number).

(** The cases of the second call of [load]. *)
Ltac second_call :=
  let resp2 := fresh "resp" in
  destruct (network _) as [resp2|?]; settle;
  [destruct (resp_ok resp2); settle;
   [|destruct (decide (resp_status resp2 = 401%N)) as [->|?]; settle;
     unfold new_ApiError; destruct (ToString _); settle]|];
  repeat split; try done; right; by eexists.

Lemma DashboardPage_expired_never_throws (err : exn) :
  never_throws (DashboardPage.expired (number := number) err).
Proof.
  unfold DashboardPage.expired. destruct (decide _); never_throws_auto.
Qed.

(** X23: [load] of the dashboard catches every failure of its two calls:
    whatever the network answers, it returns and does not throw, it has
    sent one or two requests, and the spinner is hidden when it is done. *)
Theorem DashboardPage_load_finishes (v : DashboardPage.View) (w : World) :
  let r := DashboardPage.load env network v w in
  let health :=
    issued env "/health" (options_of (Get "/health" : call)) (localStorage w) in
  outcome r = Ret ()
  ∧ DashboardPage.loading (view_after r) = false
  ∧ (sent (world_after r) = health :: sent w
     ∨ ∃ summary, sent (world_after r) = summary :: health :: sent w
                  ∧ req_url summary = API_BASE_URL env +:+ "/summary").
Proof.
  intros r health. subst r health.
  unfold DashboardPage.load, DashboardPage.expired, apiGet, request, getAuthToken.
  unfold DashboardPage.setLoading, DashboardPage.setHealthError,
    DashboardPage.setSummaryError, DashboardPage.setHealth,
    DashboardPage.setSummary, DashboardPage.navigate_login.
  unfold_monad. settle.
  destruct (network _) as [resp1|reason1]; settle.
  - destruct (resp_ok resp1); settle.
    + second_call.
    + destruct (decide (resp_status resp1 = 401%N)) as [->|Hstatus1]; settle;
        unfold new_ApiError;
        destruct (ToString (failure_message _ _)); settle.
      * repeat split; try done. by left.
      * second_call.
      * second_call.
      * second_call.
  - second_call.
Qed.

(** X24: when neither of the two calls of [load] is answered 401, [load]
    sends [GET /health] and then [GET /summary] whatever the first one
    gave, records the outcome of each on its own (the parsed body of a 2xx
    response, or else the message of the failure with the previous value
    kept), hides the spinner, and neither navigates, nor shows a toast, nor
    writes the storage.  The message of the failure of a response that is
    not 2xx is the string conversion of the message picked from its body,
    or the text of the conversion error when the picked message has no
    string conversion; an empty message gives way to the text of the
    page. *)
Theorem DashboardPage_load_completes (v : DashboardPage.View) (w : World)
    (ex1 ex2 : Exchange) :
  answers_nth network (sent w) 0 ex1 →
  answers_nth network (sent w) 1 ex2 →
  (∀ resp, ex1 = Responded resp ∨ ex2 = Responded resp →
           resp_status resp ≠ 401%N) →
  let told (ex : Exchange) (fallback : string) : option string :=
    match ex with
    | Responded resp =>
        if resp_ok resp then None
        else
          let picked :=
            failure_message (parse_body (resp_text resp)) (resp_status resp) in
          Some (or_default
                  (Some match ToString picked with
                        | Some message => message
                        | None => ToPrimitive_error
                        end)
                  fallback)
    | Unreachable reason => Some (or_default (Some reason) fallback)
    end in
  let got (ex : Exchange) (previous : value) : value :=
    match ex with
    | Responded resp =>
        if resp_ok resp then parse_body (resp_text resp) else previous
    | Unreachable _ => previous
    end in
  DashboardPage.load env network v w
  = (Ret (),
     {| DashboardPage.health := got ex1 (DashboardPage.health v);
        DashboardPage.healthError := told ex1 "Ошибка запроса /health";
        DashboardPage.summary := got ex2 (DashboardPage.summary v);
        DashboardPage.summaryError := told ex2 "Ошибка запроса /summary";
        DashboardPage.loading := false;
        DashboardPage.navigations := DashboardPage.navigations v |},
     push_sent
       (issued env "/summary" (options_of (Get "/summary" : call)) (localStorage w))
       (push_sent
          (issued env "/health" (options_of (Get "/health" : call)) (localStorage w))
          w)).
Proof.
  intros Hnet1 Hnet2 Hstatus told got. subst told got.
  unfold DashboardPage.load, DashboardPage.expired, apiGet, request, getAuthToken.
  unfold DashboardPage.setLoading, DashboardPage.setHealthError,
    DashboardPage.setSummaryError, DashboardPage.setHealth,
    DashboardPage.setSummary, DashboardPage.navigate_login.
  unfold_monad. settle.
  rewrite (answers_first _ _ _ _ Hnet1).
  assert (Hsecond : ∀ resp2, ex2 = Responded resp2 → resp_status resp2 ≠ 401%N)
    by (intros resp2 ->; apply Hstatus; by right).
  assert (Hfirst : ∀ resp1, ex1 = Responded resp1 → resp_status resp1 ≠ 401%N)
    by (intros resp1 ->; apply Hstatus; by left).
  clear Hstatus.
  destruct ex1 as [resp1|reason1]; settle.
  - specialize (Hfirst resp1 eq_refl).
    destruct (resp_ok resp1); settle.
    + rewrite (answers_second _ _ _ _ _ Hnet2).
      destruct ex2 as [resp2|reason2]; settle; [|done].
      specialize (Hsecond resp2 eq_refl).
      destruct (resp_ok resp2); settle; [done|].
      unfold new_ApiError.
      destruct (ToString (failure_message _ (resp_status resp2))); settle;
        by destruct w.
    + unfold new_ApiError.
      destruct (ToString (failure_message _ (resp_status resp1))); settle;
        rewrite (answers_second _ _ _ _ _ Hnet2);
        (destruct ex2 as [resp2|reason2]; settle; [|done]);
        specialize (Hsecond resp2 eq_refl);
        (destruct (resp_ok resp2); settle; [done|]);
        destruct (ToString (failure_message _ (resp_status resp2))); settle;
        by destruct w.
  - rewrite (answers_second _ _ _ _ _ Hnet2).
    destruct ex2 as [resp2|reason2]; settle; [|done].
    specialize (Hsecond resp2 eq_refl).
    destruct (resp_ok resp2); settle; [done|].
    unfold new_ApiError.
    destruct (ToString (failure_message _ (resp_status resp2))); settle;
      by destruct w.
Qed.

(** X25: when a call of [load] is answered 401 and the message picked
    from the body of that response has a string conversion (so that the
    failure thrown carries the status), [load] stops there: it has removed
    the token and the user name, it shows one error toast saying that the
    session has expired, navigates to the login page (replacing the entry,
    with [/] as the place to come back to), hides the spinner and returns.
    A 401 on [/health] means [/summary] is never requested; a 401 on
    [/summary] comes after the request of [/health], whatever that one gave
    short of a 401. *)
Theorem DashboardPage_load_expired (v : DashboardPage.View) (w : World)
    (resp : Response) :
  resp_status resp = 401%N →
  is_Some (ToString (failure_message (parse_body (resp_text resp)) 401)) →
  let r := DashboardPage.load env network v w in
  let health :=
    issued env "/health" (options_of (Get "/health" : call)) (localStorage w) in
  let summary :=
    issued env "/summary" (options_of (Get "/summary" : call)) (localStorage w) in
  let redirected (requests : list Request) :=
    outcome r = Ret ()
    ∧ sent (world_after r) = (requests ++ sent w)%list
    ∧ localStorage (world_after r)
      = delete "authUsername" (delete "authToken" (localStorage w))
    ∧ toasts (world_after r)
      = (ToastError, "Сессия истекла, войдите заново") :: toasts w
    ∧ DashboardPage.navigations (view_after r)
      = {| nav_to := "/login"; nav_replace := true; nav_from := Some "/" |}
        :: DashboardPage.navigations v
    ∧ DashboardPage.loading (view_after r) = false in
  (answers_nth network (sent w) 0 (Responded resp) →
   redirected [health]
   ∧ DashboardPage.summary (view_after r) = DashboardPage.summary v
   ∧ DashboardPage.summaryError (view_after r) = None)
  ∧ (∀ ex1,
       answers_nth network (sent w) 0 ex1 →
       (∀ resp1, ex1 = Responded resp1 → resp_status resp1 ≠ 401%N) →
       answers_nth network (sent w) 1 (Responded resp) →
       redirected [summary; health]).
Proof.
  intros Hstatus [message Hmessage] r health summary redirected.
  subst r health summary redirected.
  destruct resp as [status text]. cbn in Hstatus, Hmessage. subst status.
  unfold DashboardPage.load, DashboardPage.expired, apiGet, request, getAuthToken.
  unfold DashboardPage.setLoading, DashboardPage.setHealthError,
    DashboardPage.setSummaryError, DashboardPage.setHealth,
    DashboardPage.setSummary, DashboardPage.navigate_login.
  unfold_monad. split.
  - intros Hnet1. settle. rewrite (answers_first _ _ _ _ Hnet1). settle.
    unfold new_ApiError. rewrite Hmessage. settle. done.
  - intros ex1 Hnet1 Hstatus1 Hnet2. settle.
    rewrite (answers_first _ _ _ _ Hnet1).
    destruct ex1 as [resp1|reason1]; settle.
    + specialize (Hstatus1 resp1 eq_refl).
      destruct (resp_ok resp1); settle.
      * rewrite (answers_second _ _ _ _ _ Hnet2). settle.
        unfold new_ApiError. rewrite Hmessage. settle. done.
      * unfold new_ApiError.
        destruct (ToString (failure_message _ (resp_status resp1))); settle;
          rewrite (answers_second _ _ _ _ _ Hnet2); settle;
          rewrite Hmessage; settle; done.
    + rewrite (answers_second _ _ _ _ _ Hnet2). settle.
      unfold new_ApiError. rewrite Hmessage. settle. done.
Qed.

End DashboardFacts.

(** ** The registration page *)

Section RegisterFacts.
Context {number : Type} `{!Runtime number}.
Variable env : ImportMetaEnv.
Variable network : list Request → Exchange.
Variable null_property_error : string → string.

Local Abbreviation value := (value number).
Local Abbreviation handleSubmit :=
  (RegisterPage.handleSubmit env network null_property_error).

(** The two requests of the page. *)
Local Abbreviation register_request v :=
  {| req_url := AUTH_BASE_URL env +:+ "/register";
     req_init :=
       post_json
         (JObj [("username", JStr (RegisterPage.username v));
                ("email", JStr (RegisterPage.email v));
                ("password", JStr (RegisterPage.password v))]) |}.
Local Abbreviation login_request v :=
  {| req_url := AUTH_BASE_URL env +:+ "/login";
     req_init :=
       post_json
         (JObj [("username", JStr (RegisterPage.username v));
                ("password", JStr (RegisterPage.password v))]) |}.

(** The view when [handleSubmit] is done: only the spinner and the error
    can differ, and at most one navigation is added. *)
Local Abbreviation done_with v error navigations :=
  {| RegisterPage.username := RegisterPage.username v;
     RegisterPage.email := RegisterPage.email v;
     RegisterPage.password := RegisterPage.password v;
     RegisterPage.loading := false;
     RegisterPage.error := error;
     RegisterPage.navigations := navigations |}.

Ltac run_handleSubmit :=
  unfold RegisterPage.handleSubmit, RegisterPage.read, RegisterPage.navigate_home;
  unfold RegisterPage.setItem_any;
  unfold RegisterPage.setLoading, RegisterPage.setError, res_json;
  unfold_monad; cbn -[insert].

Lemma filled_in (v : RegisterPage.View) :
  RegisterPage.username v ≠ "" → RegisterPage.email v ≠ "" →
  RegisterPage.password v ≠ "" →
  negb (String_ToBoolean (RegisterPage.username v))
  || negb (String_ToBoolean (RegisterPage.email v))
  || negb (String_ToBoolean (RegisterPage.password v)) = false.
Proof.
  intros Hu%String_ToBoolean_true He%String_ToBoolean_true
    Hp%String_ToBoolean_true.
  by rewrite Hu, He, Hp.
Qed.

(** X26: when one of the three fields of the registration form is empty,
    [handleSubmit] sends nothing: it returns with the world as it was and
    only the error of the view set. *)
Theorem RegisterPage_rejects_incomplete_form (v : RegisterPage.View) (w : World) :
  RegisterPage.username v = "" ∨ RegisterPage.email v = ""
  ∨ RegisterPage.password v = "" →
  handleSubmit v w
  = (Ret (),
     {| RegisterPage.username := RegisterPage.username v;
        RegisterPage.email := RegisterPage.email v;
        RegisterPage.password := RegisterPage.password v;
        RegisterPage.loading := RegisterPage.loading v;
        RegisterPage.error := Some "Заполните все поля";
        RegisterPage.navigations := RegisterPage.navigations v |},
     w).
Proof.
  intros Hempty. run_handleSubmit.
  assert (negb (String_ToBoolean (RegisterPage.username v))
          || negb (String_ToBoolean (RegisterPage.email v))
          || negb (String_ToBoolean (RegisterPage.password v)) = true) as ->.
  { destruct Hempty as [-> | [-> | ->]]; cbn;
      by rewrite ?orb_true_r. }
  done.
Qed.

(** X27: when the registration request is not answered by a 2xx response,
    [handleSubmit] sends that one request and no login request, leaves the
    storage as it was, hides the spinner, does not navigate, and shows the
    same text as error and as error toast: the reason of the network
    failure, or for a response the [detail] of its JSON body when that is
    a string, and [HTTP] and the status when the body is not JSON, is
    [null], or has no string [detail]; an empty text is replaced by a
    default one. *)
Theorem RegisterPage_registration_failed (v : RegisterPage.View) (w : World)
    (ex : Exchange) :
  RegisterPage.username v ≠ "" → RegisterPage.email v ≠ "" →
  RegisterPage.password v ≠ "" →
  answers_nth network (sent w) 0 ex →
  (∀ resp, ex = Responded resp → resp_ok resp = false) →
  let text :=
    match ex with
    | Responded resp => RegisterPage.failure_text resp
    | Unreachable reason => reason
    end in
  let msg := or_default (Some text) "Ошибка регистрации" in
  handleSubmit v w
  = (Ret (),
     done_with v (Some msg) (RegisterPage.navigations v),
     push_toast (ToastError, msg) (push_sent (register_request v) w))
  ∧ (∀ resp, ex = Responded resp →
       (∀ props detail,
          JSON_parse (resp_text resp) = Some (JObj props) →
          obj_get "detail" props = JStr detail →
          text = detail)
       ∧ (JSON_parse (resp_text resp) = None
          ∨ JSON_parse (resp_text resp) = Some JNull →
          text = "HTTP " +:+ pretty (resp_status resp))).
Proof.
  intros Hu He Hp Hnet Hfailed text msg. subst text msg. split.
  - run_handleSubmit. rewrite (filled_in v Hu He Hp). cbn.
    rewrite (answers_first _ _ _ _ Hnet).
    destruct ex as [resp|reason]; cbn; [|done].
    by rewrite (Hfailed resp eq_refl).
  - intros resp ->. unfold RegisterPage.failure_text. split.
    + intros props detail -> Hdetail. cbn. by rewrite Hdetail.
    + by intros [-> | ->].
Qed.

(** X28: when the registration is answered by a 2xx response but the
    automatic login does not complete (no response, a response that is not
    2xx, a 2xx body that is not JSON or is [null]), [handleSubmit] has sent
    both requests, leaves the storage as it was, hides the spinner, does
    not navigate, and shows the cause as error and as error toast. *)
Theorem RegisterPage_login_failed (v : RegisterPage.View) (w : World)
    (resp1 : Response) (ex2 : Exchange) :
  RegisterPage.username v ≠ "" → RegisterPage.email v ≠ "" →
  RegisterPage.password v ≠ "" →
  answers_nth network (sent w) 0 (Responded resp1) →
  resp_ok resp1 = true →
  answers_nth network (sent w) 1 ex2 →
  (∀ resp2 data, ex2 = Responded resp2 → resp_ok resp2 = true →
                 JSON_parse (resp_text resp2) = Some data → data = JNull) →
  let fallback := "Ошибка регистрации" in
  let msg :=
    match ex2 with
    | Responded resp2 =>
        if resp_ok resp2
        then match JSON_parse (resp_text resp2) with
             | Some _ =>
                 or_default (Some (null_property_error "access_token")) fallback
             | None =>
                 or_default (Some (JSON_error (resp_text resp2))) fallback
             end
        else "Ошибка авто-входа (HTTP " +:+ pretty (resp_status resp2) +:+ ")"
    | Unreachable reason => or_default (Some reason) fallback
    end in
  handleSubmit v w
  = (Ret (),
     done_with v (Some msg) (RegisterPage.navigations v),
     push_toast (ToastError, msg)
       (push_sent (login_request v) (push_sent (register_request v) w))).
Proof.
  intros Hu He Hp Hnet1 Hok1 Hnet2 Hincomplete fallback msg. subst fallback msg.
  run_handleSubmit. rewrite (filled_in v Hu He Hp). cbn.
  rewrite (answers_first _ _ _ _ Hnet1). cbn. rewrite Hok1. cbn.
  rewrite (answers_second _ _ _ _ _ Hnet2).
  destruct ex2 as [resp2|reason2]; cbn; [|done].
  destruct (resp_ok resp2) eqn:Hok2; cbn; [|done].
  destruct (JSON_parse (resp_text resp2)) as [data|] eqn:Hparse; cbn; [|done].
  by rewrite (Hincomplete resp2 data eq_refl Hok2 Hparse).
Qed.

(** X29: when both requests are answered by 2xx responses, the body of
    the login response is JSON other than [null] and its [access_token]
    has a string conversion, [handleSubmit] stores that conversion as the
    token and the submitted name as the user name, shows a success toast,
    navigates to [/] replacing the entry, and hides the spinner.  [useAuth]
    then reads that token and name and whatever role was stored before; the
    visitor is authenticated exactly when the stored token is not empty.
    In particular a body without [access_token] stores the token
    [undefined], and the gate lets the visitor in. *)
Theorem RegisterPage_registered (v : RegisterPage.View) (w : World)
    (resp1 resp2 : Response) (data : value) (stored : string) :
  RegisterPage.username v ≠ "" → RegisterPage.email v ≠ "" →
  RegisterPage.password v ≠ "" →
  answers_nth network (sent w) 0 (Responded resp1) →
  resp_ok resp1 = true →
  answers_nth network (sent w) 1 (Responded resp2) →
  resp_ok resp2 = true →
  JSON_parse (resp_text resp2) = Some data →
  data ≠ JNull → data ≠ JUndefined →
  ToString (prop data "access_token") = Some stored →
  let r := handleSubmit v w in
  r = (Ret (),
       done_with v None
         ({| nav_to := "/"; nav_replace := true; nav_from := None |}
            :: RegisterPage.navigations v),
       push_toast (ToastSuccess, "Аккаунт создан и выполнен вход")
         (set_localStorage (insert "authUsername" (RegisterPage.username v))
            (set_localStorage (insert "authToken" stored)
               (push_sent (login_request v)
                  (push_sent (register_request v) w)))))
  ∧ outcome (useAuth (number := number) (view_after r) (world_after r))
    = Ret {| token := Some stored;
             username := Some (RegisterPage.username v);
             role := or_default (localStorage w !! "authRole") "user";
             isAuthenticated := String_ToBoolean stored |}
  ∧ (prop data "access_token" = JUndefined →
     stored = "undefined"
     ∧ outcome (RequireAuth (number := number) (view_after r) (world_after r))
       = Ret Children).
Proof.
  intros Hu He Hp Hnet1 Hok1 Hnet2 Hok2 Hparse Hnull Hundefined Hstored r.
  assert (Hrun : r = (Ret (),
       done_with v None
         ({| nav_to := "/"; nav_replace := true; nav_from := None |}
            :: RegisterPage.navigations v),
       push_toast (ToastSuccess, "Аккаунт создан и выполнен вход")
         (set_localStorage (insert "authUsername" (RegisterPage.username v))
            (set_localStorage (insert "authToken" stored)
               (push_sent (login_request v)
                  (push_sent (register_request v) w)))))).
  { subst r. run_handleSubmit. rewrite (filled_in v Hu He Hp). cbn -[insert].
    rewrite (answers_first _ _ _ _ Hnet1). cbn -[insert]. rewrite Hok1. cbn -[insert].
    rewrite (answers_second _ _ _ _ _ Hnet2). cbn -[insert].
    rewrite Hok2. cbn -[insert]. rewrite Hparse. cbn -[insert].
    destruct data; try done; cbn -[insert] in Hstored |- *;
      first [by injection Hstored as <- | by rewrite Hstored]. }
  assert (Hauth : outcome (useAuth (number := number) (view_after r) (world_after r))
    = Ret {| token := Some stored;
             username := Some (RegisterPage.username v);
             role := or_default (localStorage w !! "authRole") "user";
             isAuthenticated := String_ToBoolean stored |}).
  { rewrite Hrun, useAuth_run. unfold outcome, world_after; cbn -[insert].
    rewrite (lookup_insert_ne _ "authUsername" "authToken") by done.
    rewrite lookup_insert_eq, lookup_insert_eq.
    by rewrite !lookup_insert_ne by done. }
  split; [done|]. split; [done|].
  intros Htoken. rewrite Htoken in Hstored. injection Hstored as <-.
  split; [done|].
  rewrite RequireAuth_run. rewrite useAuth_run in Hauth.
  unfold outcome in *; cbn in *. injection Hauth as Htok _ _ _.
  by rewrite Htok.
Qed.

Lemma RegisterPage_read_direct (x : value) (k : string) :
  direct (RegisterPage.read null_property_error x k).
Proof.
  apply direct_silent. intros v w. unfold RegisterPage.read. by destruct x.
Qed.

Lemma RegisterPage_setItem_any_direct (k : string) (x : value) :
  direct (RegisterPage.setItem_any k x).
Proof.
  apply direct_silent. intros v w. unfold RegisterPage.setItem_any.
  by destruct (ToString x).
Qed.

(** X30: the registration page never attaches an [Authorization] header to
    the requests it sends, and [handleSubmit] catches every failure:
    whatever the network answers, it returns and does not throw. *)
Theorem RegisterPage_handleSubmit_safe :
  direct handleSubmit ∧ never_throws handleSubmit.
Proof.
  split.
  - unfold RegisterPage.handleSubmit.
    repeat first [direct_step | apply RegisterPage_read_direct
                 | apply RegisterPage_setItem_any_direct
                 | (apply direct_silent; reflexivity)].
  - unfold RegisterPage.handleSubmit. never_throws_auto.
Qed.

End RegisterFacts.

(** ** Runs of the further properties on the reference runtime *)

Section FurtherRuns.
Import Scenario Script.

Local Abbreviation perform net := (perform (number := Z) env net (V := unit)).

(** A scripted network answers the request number [n] with its reply
    number [n]. *)
Lemma scripted_answers (replies : list Exchange) (n : nat) (ex : Exchange) :
  replies !! n = Some ex → answers_nth (scripted replies) [] n ex.
Proof.
  intros Hreply fresh Hlength. unfold scripted.
  rewrite length_app, Hlength. cbn. rewrite Nat.add_0_r, Nat.sub_0_r.
  by rewrite Hreply.
Qed.

(** A network that always gives the same answer gives it to every
    request. *)
Lemma constant_answers (ex : Exchange) (h : list Request) (n : nat) :
  answers_nth (λ _, ex) h n ex.
Proof. by intros fresh _. Qed.

Lemma call_storage_frame_witness :
  let r := perform (answers 401 expired_body) (Get "/summary") () themed in
  let r' := perform (answers 404 expired_body) (Get "/summary") () themed in
  localStorage (world_after r) !! "theme" = Some "dark"
  ∧ localStorage (world_after r') = localStorage themed.
Proof.
  split.
  - exact (proj1 (call_storage_frame env (answers 401 expired_body)
                    (Get "/summary") () themed) "theme"
             ltac:(discriminate) ltac:(discriminate)).
  - apply (proj2 (call_storage_frame env (answers 404 expired_body)
                    (Get "/summary") () themed)).
    intros resp Hresp. injection Hresp as <-. discriminate.
Defined.

Lemma unparseable_body_is_raw_text_witness :
  let r := perform (answers 200 "oops") (Get "/health") () alice in
  let r' := perform (answers 502 "Bad Gateway") (Get "/health") () alice in
  outcome r = Ret (JStr "oops")
  ∧ outcome r'
    = Throw (ApiError "Request failed with status 502" 502 (JStr "Bad Gateway")).
Proof.
  split.
  - refine (proj1 (unparseable_body_is_raw_text env (answers 200 "oops")
                     (Get "/health") () alice _ eq_refl eq_refl _) eq_refl).
    discriminate.
  - refine (proj2 (unparseable_body_is_raw_text env (answers 502 "Bad Gateway")
                     (Get "/health") () alice _ eq_refl eq_refl _) eq_refl).
    discriminate.
Defined.

Lemma message_field_is_the_fallback_witness :
  let body := JSON_stringify (JObj [("message", JStr "quota exceeded")]) in
  let r := perform (answers 429 body) (Get "/summary") () alice in
  ∃ e, outcome r = Throw e ∧ exn_message e = "quota exceeded".
Proof.
  refine (message_field_is_the_fallback env
            (answers 429 (JSON_stringify (JObj [("message", JStr "quota exceeded")])))
            (Get "/summary") () alice _ [("message", JStr "quota exceeded")]
            "quota exceeded" eq_refl eq_refl eq_refl eq_refl eq_refl _).
  discriminate.
Defined.

Lemma structured_detail_message_witness :
  let problem := JObj [("loc", JStr "body"); ("msg", JStr "field required")] in
  let body := JSON_stringify (JObj [("detail", JArr [problem; problem])]) in
  let r := perform (answers 422 body) (Post "/users" (JObj [])) () alice in
  let body' := JSON_stringify (JObj [("detail", JObj [("toString", JNum 1%Z)])]) in
  let r' := perform (answers 400 body') (Get "/users") () alice in
  outcome r
  = Throw (ApiError "[object Object],[object Object]" 422
             (JObj [("detail", JArr [problem; problem])]))
  ∧ outcome r' = Throw (TypeError "Cannot convert object to primitive value").
Proof.
  intros problem body r body' r'. split.
  - assert (Hbody : parse_body (number := Z) body
                    = JObj [("detail", JArr [problem; problem])])
      by reflexivity.
    destruct (structured_detail_message env (answers 422 body)
                (Post "/users" (JObj [])) () alice _
                [("detail", JArr [problem; problem])] eq_refl eq_refl Hbody)
      as (e & Hout & _ & Harray & _).
    rewrite (Harray [problem; problem] eq_refl) in Hout; [exact Hout|].
    repeat constructor; by eexists.
  - assert (Hbody : parse_body (number := Z) body'
                    = JObj [("detail", JObj [("toString", JNum 1%Z)])])
      by reflexivity.
    destruct (structured_detail_message env (answers 400 body')
                (Get "/users") () alice _
                [("detail", JObj [("toString", JNum 1%Z)])] eq_refl eq_refl Hbody)
      as (e & Hout & _ & _ & Hobject).
    destruct (Hobject [("toString", JNum 1%Z)] eq_refl eq_refl) as [He _].
    rewrite He in Hout. exact Hout.
Defined.

Lemma after_unauthorized_next_call_is_anonymous_witness :
  let r1 := perform (answers 401 expired_body) (Get "/summary") () alice in
  outcome (RequireAuth (number := Z) (view_after r1) (world_after r1))
    = Ret to_login
  ∧ ∃ req,
      sent (world_after (perform (answers 401 expired_body) (Get "/health")
                           (view_after r1) (world_after r1)))
        = req :: sent (world_after r1)
      ∧ header "Authorization" req = None.
Proof.
  exact (after_unauthorized_next_call_is_anonymous env
           (answers 401 expired_body) (Get "/summary") (Get "/health") ()
           alice _ eq_refl eq_refl).
Defined.

Lemma logout_then_anonymous_witness :
  let w1 := world_after (logout (number := Z) () themed) in
  localStorage w1 !! "theme" = Some "dark"
  ∧ outcome (RequireAuth (number := Z) () w1) = Ret to_login.
Proof.
  destruct (logout_then_anonymous env (answers 200 "null") (Get "/health")
              () themed) as (Hframe & _ & Hgate & _).
  split; [|exact Hgate].
  exact (Hframe "theme" ltac:(discriminate) ltac:(discriminate)
           ltac:(discriminate)).
Defined.

Lemma header_logout_witness :
  let r := Header.handleLogout (number := Z) [] themed in
  localStorage (world_after r) !! "authRole" = Some "admin"
  ∧ localStorage (world_after r) !! "authToken" = None.
Proof.
  destruct (header_logout (number := Z) (V := unit) [] () themed)
    as (_ & _ & Htoken & _ & Hframe & _).
  split; [|exact Htoken].
  exact (Hframe "authRole" ltac:(discriminate) ltac:(discriminate)).
Defined.

Lemma base_urls_never_empty_witness :
  let configured :=
    {| VITE_API_URL := Some "https://gateway.example"; VITE_AUTH_API_URL := None;
       VITE_USERS_API_URL := Some ""; VITE_CATALOG_API_URL := None;
       VITE_ORDERS_API_URL := Some "https://orders.example" |} in
  API_BASE_URL configured = "https://gateway.example"
  ∧ AUTH_BASE_URL configured = "http://localhost:8001"
  ∧ USERS_BASE_URL configured = "http://localhost:8002"
  ∧ CATALOG_BASE_URL configured = "http://localhost:8003"
  ∧ ORDERS_BASE_URL configured = "https://orders.example".
Proof.
  intros configured.
  destruct (base_urls_never_empty configured)
    as ((_ & _ & Hapi) & (_ & Hauth & _) & (_ & Husers & _)
        & (_ & Hcatalog & _) & (_ & _ & Horders)).
  split; [|split; [|split; [|split]]].
  - apply (Hapi "https://gateway.example" eq_refl). discriminate.
  - apply Hauth. by left.
  - apply Husers. by right.
  - apply Hcatalog. by left.
  - apply (Horders "https://orders.example" eq_refl). discriminate.
Defined.

Lemma answers_always (status : N) (text : string) (h : list Request) (n : nat) :
  answers_nth (answers status text) h n (reply status text).
Proof. by intros fresh _. Qed.

Lemma down_always (h : list Request) (n : nat) :
  answers_nth down h n (Unreachable "Failed to fetch").
Proof. by intros fresh _. Qed.

(** Settles that a given reply is not a 2xx response. *)
Ltac not_ok := let H := fresh in intros ? H; injection H as <-; reflexivity.

Lemma CatalogPage_rejects_invalid_form_witness :
  CatalogPage.handleCreate env down (catalog_form "" "3") alice
  = (Ret (),
     {| CatalogPage.products := JArr []; CatalogPage.loading := false;
        CatalogPage.error := None; CatalogPage.name := "";
        CatalogPage.price := "3"; CatalogPage.inStock := true;
        CatalogPage.creating := false;
        CatalogPage.createError := Some "Введите имя товара" |},
     alice)
  ∧ CatalogPage.createError
      (view_after (CatalogPage.handleCreate env down (catalog_form "tea" "0") alice))
    = Some "Введите корректную цену (> 0)".
Proof.
  split.
  - exact (proj1 (CatalogPage_rejects_invalid_form env down
                    (catalog_form "" "3") alice) eq_refl).
  - rewrite (proj2 (CatalogPage_rejects_invalid_form env down
                      (catalog_form "tea" "0") alice)
               ltac:(discriminate) eq_refl).
    reflexivity.
Defined.

Lemma CatalogPage_create_failed_witness :
  let r := CatalogPage.handleCreate env (answers 500 "") (catalog_form "tea" "3")
             alice in
  CatalogPage.createError (view_after r) = Some "HTTP 500"
  ∧ CatalogPage.name (view_after r) = "tea"
  ∧ length (sent (world_after r)) = 1.
Proof.
  cbv zeta.
  rewrite (CatalogPage_create_failed env (answers 500 "") (catalog_form "tea" "3")
             alice (reply 500 "") ltac:(discriminate) eq_refl
             (answers_always 500 "" _ _) ltac:(not_ok)).
  repeat split.
Defined.

Lemma CatalogPage_loadProducts_result_witness :
  let r := CatalogPage.loadProducts env (answers 200 "[]") (catalog_form "" "")
             alice in
  let r' := CatalogPage.loadProducts env (answers 200 "<html>")
              (catalog_form "" "") alice in
  (CatalogPage.products (view_after r) = JArr []
   ∧ CatalogPage.error (view_after r) = None)
  ∧ CatalogPage.error (view_after r') = Some "Unexpected token in JSON".
Proof.
  cbv zeta.
  rewrite (CatalogPage_loadProducts_result env (answers 200 "[]")
             (catalog_form "" "") alice _ (answers_always 200 "[]" _ _)).
  rewrite (CatalogPage_loadProducts_result env (answers 200 "<html>")
             (catalog_form "" "") alice _ (answers_always 200 "<html>" _ _)).
  repeat split.
Defined.

Lemma CatalogPage_create_succeeded_witness :
  let r := CatalogPage.handleCreate env (answers 201 "[]") (catalog_form "tea" "3")
             alice in
  CatalogPage.name (view_after r) = ""
  ∧ CatalogPage.createError (view_after r) = None
  ∧ length (sent (world_after r)) = 2.
Proof.
  cbv zeta.
  rewrite (CatalogPage_create_succeeded env (answers 201 "[]")
             (catalog_form "tea" "3") alice _ ltac:(discriminate) eq_refl
             (answers_always 201 "[]" _ _) eq_refl).
  repeat split.
Defined.

Lemma UsersPage_handleCreate_request_witness :
  let r := UsersPage.handleCreate (number := Z) env down (users_form "" "") alice in
  let r' := UsersPage.handleCreate (number := Z) env down (users_form "bob" "")
              alice in
  world_after r = alice
  ∧ outcome r' = Ret ()
  ∧ UsersPage.creating (view_after r') = false.
Proof.
  cbv zeta. split.
  - by rewrite (proj1 (UsersPage_handleCreate_request env down
                         (users_form "" "") alice) eq_refl).
  - destruct (proj2 (UsersPage_handleCreate_request env down
                       (users_form "bob" "") alice) ltac:(discriminate))
      as (Hout & Hcreating & _).
    by split.
Defined.

Lemma OrdersPage_rejects_invalid_form_witness :
  let run form := OrdersPage.handleCreate env down form alice in
  let rejected form message :=
    (Ret (),
     {| OrdersPage.orders := OrdersPage.orders form;
        OrdersPage.ordersLoading := OrdersPage.ordersLoading form;
        OrdersPage.ordersError := OrdersPage.ordersError form;
        OrdersPage.users := OrdersPage.users form;
        OrdersPage.usersError := OrdersPage.usersError form;
        OrdersPage.products := OrdersPage.products form;
        OrdersPage.productsError := OrdersPage.productsError form;
        OrdersPage.userId := OrdersPage.userId form;
        OrdersPage.productId := OrdersPage.productId form;
        OrdersPage.quantity := OrdersPage.quantity form;
        OrdersPage.creating := OrdersPage.creating form;
        OrdersPage.createError := Some message |},
     alice) in
  run (orders_form "" "2" "1")
    = rejected (orders_form "" "2" "1") "Выберите пользователя"
  ∧ run (orders_form "1" "" "1")
    = rejected (orders_form "1" "" "1") "Выберите товар"
  ∧ run (orders_form "1" "2" "0")
    = rejected (orders_form "1" "2" "0") "Количество должно быть > 0".
Proof.
  cbv zeta. split; [|split].
  - exact (proj1 (OrdersPage_rejects_invalid_form env down
                    (orders_form "" "2" "1") alice) eq_refl).
  - exact (proj1 (proj2 (OrdersPage_rejects_invalid_form env down
                           (orders_form "1" "" "1") alice))
             ltac:(discriminate) eq_refl).
  - exact (proj2 (proj2 (OrdersPage_rejects_invalid_form env down
                           (orders_form "1" "2" "0") alice))
             ltac:(discriminate) ltac:(discriminate) eq_refl).
Defined.

Lemma OrdersPage_loadOrders_result_witness :
  let r := OrdersPage.loadOrders (number := Z) env (answers 503 "")
             (orders_form "" "" "1") alice in
  OrdersPage.ordersError (view_after r) = Some "HTTP 503"
  ∧ toasts (world_after r) = [(ToastError, "Ошибка загрузки заказов: HTTP 503")].
Proof.
  destruct (OrdersPage_loadOrders_result env (answers 503 "")
              (orders_form "" "" "1") alice _ (answers_always 503 "" _ _))
    as (_ & _ & _ & Herror & _ & Htoasts).
  split; [exact Herror | exact Htoasts].
Defined.

Lemma DashboardPage_load_completes_witness :
  let r := DashboardPage.load (number := Z) env down DashboardPage.initial alice in
  let body := JSON_stringify (JObj [("detail", JObj [("toString", JNum 1%Z)])]) in
  let r' := DashboardPage.load (number := Z) env (answers 400 body)
              DashboardPage.initial alice in
  (DashboardPage.healthError (view_after r) = Some "Failed to fetch"
   ∧ DashboardPage.summaryError (view_after r) = Some "Failed to fetch"
   ∧ DashboardPage.loading (view_after r) = false
   ∧ DashboardPage.navigations (view_after r) = []
   ∧ length (sent (world_after r)) = 2)
  ∧ (DashboardPage.healthError (view_after r')
     = Some "Cannot convert object to primitive value"
     ∧ DashboardPage.navigations (view_after r') = []
     ∧ localStorage (world_after r') = localStorage alice
     ∧ length (sent (world_after r')) = 2).
Proof.
  cbv zeta. split.
  - rewrite (DashboardPage_load_completes env down DashboardPage.initial alice
               _ _ (down_always _ _) (down_always _ _)).
    + repeat split.
    + intros resp [H | H]; discriminate H.
  - rewrite (DashboardPage_load_completes env (answers 400 _)
               DashboardPage.initial alice
               _ _ (answers_always 400 _ _ _) (answers_always 400 _ _ _)).
    + repeat split.
    + intros resp [H | H]; injection H as <-; discriminate.
Defined.

Lemma DashboardPage_load_expired_witness :
  let r := DashboardPage.load (number := Z) env (answers 401 expired_body)
             DashboardPage.initial alice in
  let r' := DashboardPage.load (number := Z) env
              (scripted [reply 200 "{}"; reply 401 expired_body])
              DashboardPage.initial alice in
  (length (sent (world_after r)) = 1
   ∧ localStorage (world_after r) !! "authToken" = None
   ∧ DashboardPage.navigations (view_after r)
     = [{| nav_to := "/login"; nav_replace := true; nav_from := Some "/" |}])
  ∧ (length (sent (world_after r')) = 2
     ∧ toasts (world_after r')
       = [(ToastError, "Сессия истекла, войдите заново")]).
Proof.
  assert (Hconverts :
            is_Some (ToString (number := Z)
                       (failure_message (parse_body expired_body) 401)))
    by (exists "expired"; reflexivity).
  split.
  - destruct (proj1 (DashboardPage_load_expired env (answers 401 expired_body)
                       DashboardPage.initial alice
                       {| resp_status := 401; resp_text := expired_body |}
                       eq_refl Hconverts)
                (answers_always 401 expired_body _ _))
      as ((_ & Hsent & Hls & _ & Hnav & _) & _).
    split; [by rewrite Hsent|]. split; [by rewrite Hls|exact Hnav].
  - destruct (proj2 (DashboardPage_load_expired env
                       (scripted [reply 200 "{}"; reply 401 expired_body])
                       DashboardPage.initial alice
                       {| resp_status := 401; resp_text := expired_body |}
                       eq_refl Hconverts)
                (reply 200 "{}")
                (scripted_answers [reply 200 "{}"; reply 401 expired_body] 0
                   (reply 200 "{}") eq_refl)
                ltac:(intros ? H; injection H as <-; discriminate)
                (scripted_answers [reply 200 "{}"; reply 401 expired_body] 1
                   (reply 401 expired_body) eq_refl))
      as (_ & Hsent & _ & Htoasts & _).
    split; [by rewrite Hsent|exact Htoasts].
Defined.

Local Abbreviation handleSubmit net :=
  (RegisterPage.handleSubmit (number := Z) env net null_property_error).

Lemma RegisterPage_rejects_incomplete_form_witness :
  let r := handleSubmit down (register_form "bob" "" "secret") (browser []) in
  RegisterPage.error (view_after r) = Some "Заполните все поля"
  ∧ world_after r = browser [].
Proof.
  cbv zeta.
  rewrite (RegisterPage_rejects_incomplete_form env down null_property_error
             (register_form "bob" "" "secret") (browser [])
             ltac:(right; left; reflexivity)).
  by split.
Defined.

Lemma RegisterPage_registration_failed_witness :
  let taken :=
    JSON_stringify (JObj [("detail", JStr "Username already registered")]) in
  let r := handleSubmit (answers 400 taken)
             (register_form "bob" "bob@example.org" "secret") (browser []) in
  RegisterPage.error (view_after r) = Some "Username already registered"
  ∧ localStorage (world_after r) = ∅
  ∧ length (sent (world_after r)) = 1.
Proof.
  intros taken. cbv zeta.
  rewrite (proj1 (RegisterPage_registration_failed env (answers 400 taken)
                    null_property_error
                    (register_form "bob" "bob@example.org" "secret") (browser [])
                    (reply 400 taken)
                    ltac:(discriminate) ltac:(discriminate) ltac:(discriminate)
                    (answers_always 400 taken _ _) ltac:(not_ok))).
  repeat split.
Defined.

Lemma RegisterPage_login_failed_witness :
  let r := handleSubmit (scripted [reply 201 "{}"; reply 401 ""])
             (register_form "bob" "bob@example.org" "secret") (browser []) in
  RegisterPage.error (view_after r) = Some "Ошибка авто-входа (HTTP 401)"
  ∧ localStorage (world_after r) = ∅
  ∧ length (sent (world_after r)) = 2.
Proof.
  cbv zeta.
  rewrite (RegisterPage_login_failed env (scripted [reply 201 "{}"; reply 401 ""])
             null_property_error
             (register_form "bob" "bob@example.org" "secret") (browser [])
             {| resp_status := 201; resp_text := "{}" |} (reply 401 "")
             ltac:(discriminate) ltac:(discriminate) ltac:(discriminate)
             (scripted_answers [reply 201 "{}"; reply 401 ""] 0 (reply 201 "{}")
                eq_refl)
             eq_refl
             (scripted_answers [reply 201 "{}"; reply 401 ""] 1 (reply 401 "")
                eq_refl)
             ltac:(intros ? ? H; injection H as <-; discriminate)).
  repeat split.
Defined.

Lemma RegisterPage_registered_witness :
  let granted := JSON_stringify (JObj [("access_token", JStr "tok123")]) in
  let r := handleSubmit (scripted [reply 201 "{}"; reply 200 granted])
             (register_form "bob" "bob@example.org" "secret") (browser []) in
  let r' := handleSubmit (scripted [reply 201 "{}"; reply 200 "{}"])
              (register_form "bob" "bob@example.org" "secret") (browser []) in
  (localStorage (world_after r) !! "authToken" = Some "tok123"
   ∧ localStorage (world_after r) !! "authUsername" = Some "bob")
  ∧ (localStorage (world_after r') !! "authToken" = Some "undefined"
     ∧ outcome (RequireAuth (number := Z) (view_after r') (world_after r'))
       = Ret Children).
Proof.
  intros granted. cbv zeta. split.
  - rewrite (proj1 (RegisterPage_registered env
                      (scripted [reply 201 "{}"; reply 200 granted])
                      null_property_error
                      (register_form "bob" "bob@example.org" "secret") (browser [])
                      {| resp_status := 201; resp_text := "{}" |}
                      {| resp_status := 200; resp_text := granted |}
                      (JObj [("access_token", JStr "tok123")]) "tok123"
                      ltac:(discriminate) ltac:(discriminate) ltac:(discriminate)
                      (scripted_answers [reply 201 "{}"; reply 200 granted] 0
                         (reply 201 "{}") eq_refl)
                      eq_refl
                      (scripted_answers [reply 201 "{}"; reply 200 granted] 1
                         (reply 200 granted) eq_refl)
                      eq_refl eq_refl ltac:(discriminate) ltac:(discriminate)
                      eq_refl)).
    by split.
  - pose proof (RegisterPage_registered env
                  (scripted [reply 201 "{}"; reply 200 "{}"])
                  null_property_error
                  (register_form "bob" "bob@example.org" "secret") (browser [])
                  {| resp_status := 201; resp_text := "{}" |}
                  {| resp_status := 200; resp_text := "{}" |}
                  (JObj []) "undefined"
                  ltac:(discriminate) ltac:(discriminate) ltac:(discriminate)
                  (scripted_answers [reply 201 "{}"; reply 200 "{}"] 0
                     (reply 201 "{}") eq_refl)
                  eq_refl
                  (scripted_answers [reply 201 "{}"; reply 200 "{}"] 1
                     (reply 200 "{}") eq_refl)
                  eq_refl eq_refl ltac:(discriminate) ltac:(discriminate)
                  eq_refl)
      as (Hrun & _ & Hundefined).
    split; [by rewrite Hrun|].
    exact (proj2 (Hundefined eq_refl)).
Defined.

End FurtherRuns.
